(** * Data source model and StringArrayField: a shallow embedding

    Sources embedded here:
    - [packages/back-end/src/models/DataSourceModel.ts]: the Mongoose-backed
      model of data source records, its upgrade-on-read migration and its
      file-config switch;
    - the [StringArrayField] React component (tag input).

    JavaScript values are embedded as an inductive type of JSON-like values,
    objects being association lists in insertion order.  Asynchronous
    functions are embedded as computations in a state-and-exception monad
    over a [World] holding the document collection, a trace of the accesses
    made to the document store and to external services, and a counter that
    indexes the answers of the outside world. *)

From Stdlib Require Import Ascii String List ZArith Bool Lia.
Import ListNotations.
Set Warnings "-register-all".
Open Scope string_scope.
Open Scope list_scope.

(* ===================================================================== *)
(** ** JavaScript values *)
(* ===================================================================== *)

(** Numbers only matter here through their truthiness, so an integer
    stands for them.  An array is an object too: besides its elements it
    can carry named properties ([own]), which is what happens when the
    source assigns [settings.ids] on a value that is an array. *)
Inductive JsVal : Type :=
| JUndefined
| JNull
| JBool (b : bool)
| JNum (n : Z)
| JStr (s : string)
| JArr (elems : list JsVal) (own : list (string * JsVal))
| JObj (own : list (string * JsVal)).

(** Thrown values.  [Error msg] is [new Error(msg)]; [TypeError] is what the
    engine raises on a property access or assignment that cannot be done. *)
Inductive Exn : Type :=
| Error (msg : string)
| TypeError.

Inductive Result (A : Type) : Type :=
| Ok (a : A)
| Throw (e : Exn).
Arguments Ok {A} a.
Arguments Throw {A} e.

Definition rbind {A B} (r : Result A) (k : A -> Result B) : Result B :=
  match r with
  | Ok a => k a
  | Throw e => Throw e
  end.

Declare Scope result_scope.
Delimit Scope result_scope with result.
Notation "'let?' x ':=' c 'in' k" := (rbind c (fun x => k))
  (at level 10, x name, c at level 100, k at level 200) : result_scope.

(** JavaScript truthiness ([!v], [a && b], [a || b], [if (v)]). *)
Definition truthy (v : JsVal) : bool :=
  match v with
  | JUndefined | JNull => false
  | JBool b => b
  | JNum n => negb (Z.eqb n 0)
  | JStr s => negb (String.eqb s "")
  | JArr _ _ | JObj _ => true
  end.

Definition nullish (v : JsVal) : bool :=
  match v with
  | JUndefined | JNull => true
  | _ => false
  end.

(** Arrays and plain objects: the values that can hold properties. *)
Definition isObject (v : JsVal) : bool :=
  match v with
  | JArr _ _ | JObj _ => true
  | _ => false
  end.

(** Own named properties, in insertion order. *)
Fixpoint getOwn (k : string) (ps : list (string * JsVal)) : JsVal :=
  match ps with
  | [] => JUndefined
  | (k', v) :: rest => if String.eqb k' k then v else getOwn k rest
  end.

(** Writing a property keeps the position of an existing key and appends a
    new one. *)
Fixpoint setOwn (k : string) (x : JsVal) (ps : list (string * JsVal))
  : list (string * JsVal) :=
  match ps with
  | [] => [(k, x)]
  | (k', v) :: rest =>
      if String.eqb k' k then (k', x) :: rest else (k', v) :: setOwn k x rest
  end.

(** Reading property [k] of a value that is not nullish.  The source reads
    only the names [ids], [queries], [experimentsQuery], [exposure],
    [experimentDimensions] and [refreshToken], none of which is a built-in
    property of a string, a number, a boolean or an array, so a primitive
    and the element part of an array answer [undefined]. *)
Definition getProp (v : JsVal) (k : string) : JsVal :=
  match v with
  | JArr _ ps | JObj ps => getOwn k ps
  | _ => JUndefined
  end.

(** [v?.k] *)
Definition optMember (v : JsVal) (k : string) : JsVal :=
  if nullish v then JUndefined else getProp v k.

(** [v.k]: a [TypeError] on [null] and [undefined]. *)
Definition member (v : JsVal) (k : string) : Result JsVal :=
  if nullish v then Throw TypeError else Ok (getProp v k).

(** [v.k = x], giving the updated [v].  The module is an ES module, hence
    strict code: assigning a property on [null], [undefined] or on a
    primitive raises a [TypeError]. *)
Definition assign (v : JsVal) (k : string) (x : JsVal) : Result JsVal :=
  match v with
  | JObj ps => Ok (JObj (setOwn k x ps))
  | JArr es ps => Ok (JArr es (setOwn k x ps))
  | _ => Throw TypeError
  end.

(** [a || b] on values. *)
Definition jsOr (a b : JsVal) : JsVal := if truthy a then a else b.

(** An array literal. *)
Definition jsArray (elems : list JsVal) : JsVal := JArr elems [].

(* ===================================================================== *)
(** ** The data source record *)
(* ===================================================================== *)

(** [DataSourceInterface] of [types/datasource]: the eight fields of
    [dataSourceSchema].  [settings] is the free-form (Mixed) bundle, [params]
    the encrypted blob, a date is a number of milliseconds. *)
Module DS.
Record DataSourceInterface : Type := mk {
  id : string;
  name : string;
  organization : string;
  type : string;
  settings : JsVal;
  dateCreated : Z;
  dateUpdated : Z;
  params : string
}.

Definition withSettings (d : DataSourceInterface) (s : JsVal)
  : DataSourceInterface :=
  {| id := id d; name := name d; organization := organization d;
     type := type d; settings := s; dateCreated := dateCreated d;
     dateUpdated := dateUpdated d; params := params d |}.
End DS.
Abbreviation DataSourceInterface := DS.DataSourceInterface.

(* ===================================================================== *)
(** ** What Mongoose does to a document on save and in [toJSON()] *)
(* ===================================================================== *)

Definition isUndefined (v : JsVal) : bool :=
  match v with
  | JUndefined => true
  | _ => false
  end.

(** The schema sets no [minimize] option, so Mongoose's default holds: when
    a document is saved and when it is turned into a plain object
    ([toObject()], [toJSON()]), its values are copied with empty objects
    removed.  In the copy of an object, a property whose copy is
    [undefined] is left out, and an object left without property becomes
    [undefined]; an array is copied element by element, and an object that
    is an element of an array stays, even empty (its own properties are
    minimized); only the elements of an array are copied; [null] and
    primitives are kept. *)
Fixpoint minimize (v : JsVal) : JsVal :=
  let fix props (ps : list (string * JsVal)) : list (string * JsVal) :=
    match ps with
    | [] => []
    | (k, x) :: rest =>
        if isUndefined (minimize x) then props rest
        else (k, minimize x) :: props rest
    end in
  let fix elems (es : list JsVal) : list JsVal :=
    match es with
    | [] => []
    | JObj ps :: rest => JObj (props ps) :: elems rest
    | e :: rest => minimize e :: elems rest
    end in
  match v with
  | JObj ps =>
      match props ps with
      | [] => JUndefined
      | ps' => JObj ps'
      end
  | JArr es _ => JArr (elems es) []
  | _ => v
  end.

(** The properties of an object, minimized. *)
Fixpoint minimizeProps (ps : list (string * JsVal)) : list (string * JsVal) :=
  match ps with
  | [] => []
  | (k, x) :: rest =>
      if isUndefined (minimize x) then minimizeProps rest
      else (k, minimize x) :: minimizeProps rest
  end.

(** The elements of an array, minimized. *)
Fixpoint minimizeElems (es : list JsVal) : list JsVal :=
  match es with
  | [] => []
  | JObj ps :: rest => JObj (minimizeProps ps) :: minimizeElems rest
  | e :: rest => minimize e :: minimizeElems rest
  end.

(** [doc.toJSON()], and the plain object that is saved for a new document:
    of the eight fields only [settings] can hold objects.  (The [_id] and
    [__v] that Mongoose adds are left out of the record.) *)
Definition toJSON (doc : DataSourceInterface) : DataSourceInterface :=
  DS.withSettings doc (minimize (DS.settings doc)).

(** The literal assigned to [settings.ids]. *)
Definition defaultIds : JsVal :=
  jsArray
    [ JObj [("id", JStr "user_id"); ("description", JStr "Logged-in user id")];
      JObj [("id", JStr "anonymous_id");
            ("description", JStr "Anonymous visitor id")] ].

(** The literal assigned to [settings.queries.exposure]. *)
Definition exposureBlock (dimensions query : JsVal) : JsVal :=
  JObj [("main",
         JObj [("description", JStr "Main experiment exposures table");
               ("dimensions", dimensions);
               ("ids", jsArray [JStr "user_id"; JStr "anonymous_id"]);
               ("query", query)])].

(** The test of the second [if] of [upgradeDatasourceObject]. *)
Definition needsExposure (settings : JsVal) : bool :=
  truthy (optMember (optMember settings "queries") "experimentsQuery")
  && negb (truthy (optMember (optMember settings "queries") "exposure")).

(** [upgradeDatasourceObject].  The source mutates the object that
    [datasource.settings] and the local [settings] both name, and the
    object that [settings.queries] names; here each write gives the new
    value of the enclosing object, which is put back in place. *)
Definition upgradeSettings (settings : JsVal) : Result JsVal :=
  (let? settings :=
     if negb (truthy (optMember settings "ids"))
     then assign settings "ids" defaultIds
     else Ok settings in
   if truthy (optMember (optMember settings "queries") "experimentsQuery")
      && negb (truthy (optMember (optMember settings "queries") "exposure"))
   then
     let? queries := member settings "queries" in
     let? experimentDimensions := member settings "experimentDimensions" in
     let? experimentsQuery := member queries "experimentsQuery" in
     let? queries :=
       assign queries "exposure"
         (exposureBlock (jsOr experimentDimensions (jsArray []))
                        experimentsQuery) in
     assign settings "queries" queries
   else Ok settings)%result.

Definition upgradeDatasourceObject (datasource : DataSourceInterface)
  : Result DataSourceInterface :=
  (let? settings := upgradeSettings (DS.settings datasource) in
   Ok (DS.withSettings datasource settings))%result.

(** [Partial<DataSourceInterface>]: each field named or not. *)
Module Partial.
Record DataSourceInterface : Type := mk {
  id : option string;
  name : option string;
  organization : option string;
  type : option string;
  settings : option JsVal;
  dateCreated : option Z;
  dateUpdated : option Z;
  params : option string
}.

Definition empty : DataSourceInterface :=
  mk None None None None None None None None.
End Partial.

(** One field under [$set]. *)
Definition setField {A} (new : option A) (old : A) : A :=
  match new with
  | Some v => v
  | None => old
  end.

(** [{ $set: updates }] applied to a document. *)
Definition applySet (d : DataSourceInterface) (updates : Partial.DataSourceInterface)
  : DataSourceInterface :=
  {| DS.id := setField (Partial.id updates) (DS.id d);
     DS.name := setField (Partial.name updates) (DS.name d);
     DS.organization :=
       setField (Partial.organization updates) (DS.organization d);
     DS.type := setField (Partial.type updates) (DS.type d);
     DS.settings := setField (Partial.settings updates) (DS.settings d);
     DS.dateCreated := setField (Partial.dateCreated updates) (DS.dateCreated d);
     DS.dateUpdated := setField (Partial.dateUpdated updates) (DS.dateUpdated d);
     DS.params := setField (Partial.params updates) (DS.params d) |}.

(* ===================================================================== *)
(** ** The world: document collection, trace, outside answers *)
(* ===================================================================== *)

(** What the model records of an execution: every call made on
    [DataSourceModel] and every call to an external service. *)
Inductive Event : Type :=
| DbFind (organization : string)
| DbFindOne (id organization : string)
| DbDistinct (field : string)
| DbDeleteOne (id organization : string)
| DbCreate (doc : DataSourceInterface)
| DbUpdateOne (id organization : string) (updates : Partial.DataSourceInterface)
| ExtTestConnection (at_ : nat) (datasource : DataSourceInterface)
| ExtGetToken (at_ : nat) (code : JsVal).

Record World : Type := mkWorld {
  docs : list DataSourceInterface;   (* the DataSource collection, natural order *)
  trace : list Event;                (* oldest first *)
  tick : nat                         (* indexes the outside world's answers *)
}.

Definition M (A : Type) : Type := World -> Result A * World.

Definition ret {A} (a : A) : M A := fun w => (Ok a, w).

Definition throw {A} (e : Exn) : M A := fun w => (Throw e, w).

Definition bind {A B} (c : M A) (k : A -> M B) : M B :=
  fun w =>
    match c w with
    | (Ok a, w') => k a w'
    | (Throw e, w') => (Throw e, w')
    end.

Definition liftR {A} (r : Result A) : M A := fun w => (r, w).

Declare Scope m_scope.
Delimit Scope m_scope with M.
Notation "x <- c ;; k" := (bind c (fun x => k))
  (at level 61, c at next level, right associativity) : m_scope.
Notation "c ;; k" := (bind c (fun _ => k))
  (at level 61, right associativity) : m_scope.

Definition emit (e : Event) : M unit :=
  fun w => (Ok tt, mkWorld (docs w) (trace w ++ [e]) (tick w)).

(** The index of the next answer of the outside world. *)
Definition nextTick : M nat :=
  fun w => (Ok (tick w), mkWorld (docs w) (trace w) (S (tick w))).

Definition getDocs : M (list DataSourceInterface) := fun w => (Ok (docs w), w).

Definition putDocs (ds : list DataSourceInterface) : M unit :=
  fun w => (Ok tt, mkWorld ds (trace w) (tick w)).

Fixpoint mapM {A B} (f : A -> M B) (l : list A) : M (list B) :=
  match l with
  | [] => ret []
  | a :: rest => (b <- f a ;; bs <- mapM f rest ;; ret (b :: bs))%M
  end.

(* ===================================================================== *)
(** ** The Mongoose model [DataSourceModel] *)
(* ===================================================================== *)

(** The filter [{ id, organization }]. *)
Definition matches (id organization : string) (d : DataSourceInterface) : bool :=
  String.eqb (DS.id d) id && String.eqb (DS.organization d) organization.

Fixpoint removeFirst {A} (p : A -> bool) (l : list A) : list A :=
  match l with
  | [] => []
  | a :: rest => if p a then rest else a :: removeFirst p rest
  end.

Fixpoint updateFirst {A} (p : A -> bool) (f : A -> A) (l : list A) : list A :=
  match l with
  | [] => []
  | a :: rest => if p a then f a :: rest else a :: updateFirst p f rest
  end.

(** The server's answer when a write would break the unique index
    [{ id: 1, organization: 1 }]. *)
Definition duplicateKey : Exn := Error "E11000 duplicate key error".

Module DataSourceModel.

(** [DataSourceModel.find({ organization })] *)
Definition find (organization : string) : M (list DataSourceInterface) :=
  (emit (DbFind organization) ;;
   ds <- getDocs ;;
   ret (filter (fun d => String.eqb (DS.organization d) organization) ds))%M.

(** [DataSourceModel.findOne({ id, organization })]: the first match, or
    [null]. *)
Definition findOne (id organization : string)
  : M (option DataSourceInterface) :=
  (emit (DbFindOne id organization) ;;
   ds <- getDocs ;;
   ret (List.find (matches id organization) ds))%M.

(** [DataSourceModel.distinct("organization")] *)
Definition distinct_organization : M (list string) :=
  (emit (DbDistinct "organization") ;;
   ds <- getDocs ;;
   ret (nodup string_dec (map DS.organization ds)))%M.

(** [DataSourceModel.deleteOne({ id, organization })]: the first match goes. *)
Definition deleteOne (id organization : string) : M unit :=
  (emit (DbDeleteOne id organization) ;;
   ds <- getDocs ;;
   putDocs (removeFirst (matches id organization) ds))%M.

(** [DataSourceModel.create(doc)]: the unique index
    [dataSourceSchema.index({ id: 1, organization: 1 }, { unique: true })]
    refuses a document whose pair is already stored.  What is written to
    the collection is the minimized plain object of the document; what is
    returned is the document itself. *)
Definition create (doc : DataSourceInterface) : M DataSourceInterface :=
  (emit (DbCreate doc) ;;
   ds <- getDocs ;;
   if existsb (matches (DS.id doc) (DS.organization doc)) ds
   then throw duplicateKey
   else (putDocs (ds ++ [toJSON doc]) ;; ret doc))%M.

(** [DataSourceModel.updateOne({ id, organization }, { $set: updates })]:
    the first match is updated, unless the updated document would share its
    pair with another stored document (unique index); without a match
    nothing is written. *)
Definition updateOne (id organization : string)
    (updates : Partial.DataSourceInterface) : M unit :=
  (emit (DbUpdateOne id organization updates) ;;
   ds <- getDocs ;;
   match List.find (matches id organization) ds with
   | None => ret tt
   | Some d =>
       let d' := applySet d updates in
       if existsb (matches (DS.id d') (DS.organization d'))
                  (removeFirst (matches id organization) ds)
       then throw duplicateKey
       else putDocs (updateFirst (matches id organization)
                                 (fun d => applySet d updates) ds)
   end)%M.

End DataSourceModel.

(* ===================================================================== *)
(** ** StringArrayField *)
(* ===================================================================== *)

Module StringArrayField.

(** What a handler of the component does: the calls it makes to the
    [onChange] prop, oldest first, the value it leaves in the
    [inputValue] state, and whether it called [event.preventDefault()]. *)
Record Outcome : Type := mkOutcome {
  onChangeCalls : list (list string);
  inputValue : string;
  defaultPrevented : bool
}.

(** A handler that returns at once. *)
Definition nothing (inputValue : string) : Outcome :=
  mkOutcome [] inputValue false.

(** The four [case] labels of the [switch] on [event.key], which share
    one body. *)
Definition isCommitKey (key : string) : bool :=
  String.eqb key "Enter" || String.eqb key "Tab"
  || String.eqb key " " || String.eqb key ",".

(** [onKeyDown], given the [value] prop, the [inputValue] state and
    [event.key]. *)
Definition onKeyDown (value : list string) (inputValue key : string)
  : Outcome :=
  if String.eqb inputValue "" then nothing inputValue
  else if isCommitKey key
       then mkOutcome [value ++ [inputValue]] "" true
       else nothing inputValue.

(** [onBlur] *)
Definition onBlur (value : list string) (inputValue : string) : Outcome :=
  if String.eqb inputValue "" then nothing inputValue
  else mkOutcome [value ++ [inputValue]] "" false.

(** [onInputChange] *)
Definition onInputChange (val : string) : Outcome := mkOutcome [] val false.

End StringArrayField.

(* ===================================================================== *)
(** ** The exported functions of DataSourceModel.ts *)
(* ===================================================================== *)

(** What the module imports from files that are not part of this
    development, taken as given. *)
Record Imports : Type := mkImports {
  (** [usingFileConfig()] of [init/config]: the process-wide mode flag. *)
  usingFileConfig : bool;
  (** [getConfigDatasources(organization)] of [init/config]. *)
  getConfigDatasources : string -> list DataSourceInterface;
  (** [encryptParams(params)] of [services/datasource]. *)
  encryptParams : JsVal -> string;
  (** The outcome of [testDataSourceConnection(datasource)] of
      [services/datasource] when asked at a given moment: [None] when the
      backend answers, [Some e] when the call throws [e]. *)
  connectionOutcome : nat -> DataSourceInterface -> option Exn;
  (** The [refresh_token] of the tokens that [oauth2Client.getToken(code)]
      resolves to, or the error it rejects with. *)
  tokenOutcome : nat -> JsVal -> Result JsVal;
  (** What the [uniqid] package puts after the prefix. *)
  uniqidTail : nat -> string;
  (** The system clock, in milliseconds. *)
  clock : nat -> Z
}.

Section Exports.

Variable env : Imports.

Definition testDataSourceConnection (datasource : DataSourceInterface)
  : M unit :=
  (t <- nextTick ;;
   emit (ExtTestConnection t datasource) ;;
   match connectionOutcome env t datasource with
   | Some e => throw e
   | None => ret tt
   end)%M.

(** [(await oauth2Client.getToken(code)).tokens.refresh_token] *)
Definition getToken (code : JsVal) : M JsVal :=
  (t <- nextTick ;;
   emit (ExtGetToken t code) ;;
   liftR (tokenOutcome env t code))%M.

(** [uniqid(prefix)] *)
Definition uniqid (prefix : string) : M string :=
  (t <- nextTick ;; ret (prefix ++ uniqidTail env t)%string)%M.

(** [new Date()] *)
Definition newDate : M Z := (t <- nextTick ;; ret (clock env t))%M.

(** [doc.toJSON()] gives a fresh, minimized plain copy of the document, so
    the upgrade changes the copy and not what is stored. *)
Definition toInterface (doc : DataSourceInterface) : M DataSourceInterface :=
  liftR (upgradeDatasourceObject (toJSON doc)).

Definition getDataSourcesByOrganization (organization : string)
  : M (list DataSourceInterface) :=
  (if usingFileConfig env
   then ret (getConfigDatasources env organization)
   else (found <- DataSourceModel.find organization ;; mapM toInterface found))%M.

(** [null] is [None].  A data source is an object, hence truthy, so
    [xs[0] || null] is the head of [xs] when there is one. *)
Definition getDataSourceById (id organization : string)
  : M (option DataSourceInterface) :=
  (if usingFileConfig env
   then ret (hd_error
               (filter (fun d => String.eqb (DS.id d) id)
                       (getConfigDatasources env organization)))
   else
     (doc <- DataSourceModel.findOne id organization ;;
      match doc with
      | Some doc => (d <- toInterface doc ;; ret (Some d))
      | None => ret None
      end))%M.

Definition getOrganizationsWithDatasources : M (list string) :=
  (if usingFileConfig env then ret [] else DataSourceModel.distinct_organization)%M.

Definition deleteDatasourceById (id organization : string) : M unit :=
  (if usingFileConfig env
   then throw (Error "Cannot delete. Data sources managed by config.yml")
   else DataSourceModel.deleteOne id organization)%M.

(** The optional argument [id?: string] is [None] when it is left out. *)
Definition createDataSource (organization name type : string)
    (params settings : JsVal) (id : option string) : M DataSourceInterface :=
  (if usingFileConfig env
   then throw (Error "Cannot add. Data sources managed by config.yml")
   else
     (id <- match id with
            | Some s => if negb (String.eqb s "") then ret s else uniqid "ds_"
            | None => uniqid "ds_"
            end ;;
      params <- (if String.eqb type "google_analytics"
                 then (code <- liftR (member params "refreshToken") ;;
                       refresh_token <- getToken code ;;
                       liftR (assign params "refreshToken"
                                     (jsOr refresh_token (JStr ""))))
                 else ret params) ;;
      created <- newDate ;;
      updated <- newDate ;;
      let datasource :=
        {| DS.id := id;
           DS.name := name;
           DS.organization := organization;
           DS.type := type;
           DS.settings := settings;
           DS.dateCreated := created;
           DS.dateUpdated := updated;
           DS.params := encryptParams env params |} in
      testDataSourceConnection datasource ;;
      model <- DataSourceModel.create datasource ;;
      toInterface model))%M.

(** The first half of [createDataSource], up to the [datasource] literal
    it builds, and the second half, from the connection test on.  They
    serve to state what [createDataSource] does step by step; the function
    is the one above. *)
Definition buildDatasource (organization name type : string)
    (params settings : JsVal) (id : option string) : M DataSourceInterface :=
  (id <- match id with
         | Some s => if negb (String.eqb s "") then ret s else uniqid "ds_"
         | None => uniqid "ds_"
         end ;;
   params <- (if String.eqb type "google_analytics"
              then (code <- liftR (member params "refreshToken") ;;
                    refresh_token <- getToken code ;;
                    liftR (assign params "refreshToken"
                                  (jsOr refresh_token (JStr ""))))
              else ret params) ;;
   created <- newDate ;;
   updated <- newDate ;;
   ret {| DS.id := id;
          DS.name := name;
          DS.organization := organization;
          DS.type := type;
          DS.settings := settings;
          DS.dateCreated := created;
          DS.dateUpdated := updated;
          DS.params := encryptParams env params |})%M.

Definition testAndCreate (datasource : DataSourceInterface)
  : M DataSourceInterface :=
  (testDataSourceConnection datasource ;;
   model <- DataSourceModel.create datasource ;;
   toInterface model)%M.

Definition updateDataSource (id organization : string)
    (updates : Partial.DataSourceInterface) : M unit :=
  (if usingFileConfig env
   then throw (Error "Cannot update. Data sources managed by config.yml")
   else DataSourceModel.updateOne id organization updates)%M.

End Exports.

(** The invariant that the unique index [{ id: 1, organization: 1 }] stands
    for: no two stored documents have the same pair. *)
Definition key (d : DataSourceInterface) : string * string :=
  (DS.id d, DS.organization d).

Definition uniqueKeys (ds : list DataSourceInterface) : Prop :=
  NoDup (map key ds).

(** Events of [getToken] only. *)
Definition tokenEvents (evs : list Event) : Prop :=
  forall e, In e evs -> exists t code, e = ExtGetToken t code.

(** The worlds that the three mutations can produce from an empty
    collection, whatever the arguments, whatever the imports answer, and
    whether the call returns or throws. *)
Inductive reachable : World -> Prop :=
| reach_empty w :
    docs w = [] -> reachable w
| reach_create env w organization name type params settings id :
    reachable w ->
    reachable
      (snd (createDataSource env organization name type params settings id w))
| reach_update env w id organization updates :
    reachable w ->
    reachable (snd (updateDataSource env id organization updates w))
| reach_delete env w id organization :
    reachable w ->
    reachable (snd (deleteDatasourceById env id organization w)).

(* ===================================================================== *)
(** ** Sample data *)
(* ===================================================================== *)

Module Sample.

(** A legacy bundle: an experiments query, no exposure block, no ids. *)
Definition legacySettings : JsVal :=
  JObj [("queries",
         JObj [("experimentsQuery", JStr "SELECT * FROM experiment_viewed")]);
        ("experimentDimensions", jsArray [JStr "country"])].

(** A bundle whose experiments query is there and empty. *)
Definition emptyQuerySettings : JsVal :=
  JObj [("queries", JObj [("experimentsQuery", JStr "")])].

Definition record (id organization : string) (settings : JsVal)
  : DataSourceInterface :=
  {| DS.id := id; DS.name := "Warehouse"; DS.organization := organization;
     DS.type := "postgres"; DS.settings := settings;
     DS.dateCreated := 0; DS.dateUpdated := 0; DS.params := "blob" |}.

(** Imports for a run: the backend named [unreachable] refuses the
    connection, every other one answers. *)
Definition imports (fileConfig : bool) : Imports :=
  {| usingFileConfig := fileConfig;
     getConfigDatasources := fun organization =>
       if String.eqb organization "org_1"
       then [record "ds_a" "org_1" legacySettings;
             record "ds_b" "org_1" (JObj []);
             record "ds_a" "org_1" (JObj [])]
       else [];
     encryptParams := fun _ => "blob";
     connectionOutcome := fun _ d =>
       if String.eqb (DS.name d) "unreachable"
       then Some (Error "connect ECONNREFUSED")
       else None;
     tokenOutcome := fun _ code => Ok code;
     uniqidTail := fun t => String (Ascii.ascii_of_nat (97 + t)) "";
     clock := fun t => Z.of_nat (1000 + t) |}.

Definition world (stored : list DataSourceInterface) : World :=
  mkWorld stored [] 0.

Definition renameTo (id : string) : Partial.DataSourceInterface :=
  Partial.mk (Some id) None None None None None None None.

Definition rename (name : string) : Partial.DataSourceInterface :=
  Partial.mk None (Some name) None None None None None None.

End Sample.

(* ===================================================================== *)
(** ** StringArrayField in use *)
(* ===================================================================== *)

(** The component is controlled: it shows the [value] prop and reports a new
    list through [onChange].  Here it is driven by a parent that keeps the
    list it is given and renders the component again with it, one render
    after each event.

    A key press first runs [onKeyDown].  When the handler has called
    [event.preventDefault()] that is all: the select looks at
    [event.defaultPrevented] and stops.  When it has not, and the key is a
    character key other than the space, the character goes into the input
    (taken to be inserted at the end, nothing being selected) and the
    select reports the new text through [onInputChange].  Every other key
    press that the handler does not prevent (Backspace, Delete, the
    arrows, the space on an empty input, ...) is handled by the select
    itself, which may remove a tag and report it through the [onChange] it
    passes on: such a key press, like a click on a tag or on the clear
    button, is outside this model, and [next] gives [None] for it. *)
Module StringArrayFieldUse.

Inductive Action : Type :=
| InputChange (val : string)     (* onInputChange(val): the text was edited *)
| Press (key : string)           (* a key press, with its event.key *)
| Blur.                          (* onBlur *)

(** What a render shows: the [value] prop and the [inputValue] state. *)
Record Rendered : Type := mkRendered {
  value : list string;
  inputValue : string
}.

(** [event.key] of a character key is the character; the space is not
    taken as one here. *)
Definition isCharacterKey (key : string) : bool :=
  Nat.eqb (String.length key) 1 && negb (String.eqb key " ").

(** The render after a handler: the parent keeps the last list passed to
    [onChange], the state is what the handler left. *)
Definition after (r : Rendered) (o : StringArrayField.Outcome) : Rendered :=
  {| value := last (StringArrayField.onChangeCalls o) (value r);
     inputValue := StringArrayField.inputValue o |}.

Definition next (r : Rendered) (a : Action) : option Rendered :=
  match a with
  | InputChange val => Some (after r (StringArrayField.onInputChange val))
  | Blur => Some (after r (StringArrayField.onBlur (value r) (inputValue r)))
  | Press key =>
      let o := StringArrayField.onKeyDown (value r) (inputValue r) key in
      if StringArrayField.defaultPrevented o then Some (after r o)
      else if isCharacterKey key
           then Some (after r (StringArrayField.onInputChange
                                 (inputValue r ++ key)%string))
           else None
  end.

Fixpoint run (r : Rendered) (actions : list Action) : option Rendered :=
  match actions with
  | [] => Some r
  | a :: rest =>
      match next r a with
      | Some r' => run r' rest
      | None => None
      end
  end.



End StringArrayFieldUse.

(** Imports of a run in which Google refuses every authorization code. *)
Definition importsTokenRefused : Imports :=
  {| usingFileConfig := false;
     getConfigDatasources := fun _ => [];
     encryptParams := fun _ => "blob";
     connectionOutcome := fun _ _ => None;
     tokenOutcome := fun _ _ => Throw (Error "invalid_grant");
     uniqidTail := fun t => String (Ascii.ascii_of_nat (97 + t)) "";
     clock := fun t => Z.of_nat (1000 + t) |}.

(* ===================================================================== *)
(** ** Properties of property reads and writes *)
(* ===================================================================== *)

Lemma getOwn_setOwn_same k x ps : getOwn k (setOwn k x ps) = x.
Proof.
  induction ps as [|[k' v] rest IH]; simpl.
  - now rewrite String.eqb_refl.
  - destruct (String.eqb k' k) eqn:E; simpl; rewrite E; auto.
Qed.

Lemma getOwn_setOwn_other k k' x ps :
  k <> k' -> getOwn k' (setOwn k x ps) = getOwn k' ps.
Proof.
  intros Hk. induction ps as [|[k0 v] rest IH]; simpl.
  - destruct (String.eqb_spec k k'); [contradiction | reflexivity].
  - destruct (String.eqb_spec k0 k) as [->|Hne]; simpl.
    + destruct (String.eqb_spec k k'); [contradiction | reflexivity].
    + now rewrite IH.
Qed.

Lemma assign_isObject v k x v' : assign v k x = Ok v' -> isObject v' = true.
Proof. destruct v; simpl; intros H; inversion H; reflexivity. Qed.

Lemma assign_defined v k x :
  isObject v = true -> exists v', assign v k x = Ok v'.
Proof. destruct v; simpl; intros H; try discriminate; eauto. Qed.

Lemma assign_fails v k x : isObject v = false -> assign v k x = Throw TypeError.
Proof. destruct v; simpl; intros H; try discriminate; reflexivity. Qed.

Lemma isObject_not_nullish v : isObject v = true -> nullish v = false.
Proof. destruct v; simpl; intros H; try discriminate; reflexivity. Qed.

Lemma optMember_assign_same v k x v' :
  assign v k x = Ok v' -> optMember v' k = x.
Proof.
  destruct v; simpl; intros H; inversion H; subst;
    unfold optMember; simpl; apply getOwn_setOwn_same.
Qed.

Lemma optMember_assign_other v k k' x v' :
  assign v k x = Ok v' -> k <> k' -> optMember v' k' = optMember v k'.
Proof.
  destruct v; simpl; intros H Hk; inversion H; subst;
    unfold optMember; simpl; now apply getOwn_setOwn_other.
Qed.

Lemma truthy_optMember_isObject v k :
  truthy (optMember v k) = true -> isObject v = true.
Proof. destruct v; unfold optMember; simpl; intros H; try discriminate; auto. Qed.

Lemma member_optMember v k :
  isObject v = true -> member v k = Ok (optMember v k).
Proof.
  intros H. unfold member, optMember. now rewrite (isObject_not_nullish _ H).
Qed.

(** The body of the second [if], on a [settings] that passes its test. *)
Lemma exposure_branch settings :
  needsExposure settings = true ->
  exists queries' settings',
    assign (optMember settings "queries") "exposure"
      (exposureBlock (jsOr (optMember settings "experimentDimensions")
                           (jsArray []))
         (optMember (optMember settings "queries") "experimentsQuery"))
    = Ok queries'
    /\ assign settings "queries" queries' = Ok settings'
    /\ (let? queries := member settings "queries" in
        let? experimentDimensions := member settings "experimentDimensions" in
        let? experimentsQuery := member queries "experimentsQuery" in
        let? queries :=
          assign queries "exposure"
            (exposureBlock (jsOr experimentDimensions (jsArray []))
               experimentsQuery) in
        assign settings "queries" queries)%result = Ok settings'.
Proof.
  unfold needsExposure. intros H.
  apply andb_true_iff in H as [Hq _].
  pose proof (truthy_optMember_isObject _ _ Hq) as Hqo.
  assert (Hso : isObject settings = true).
  { destruct settings; try reflexivity; unfold optMember in Hqo;
      simpl in Hqo; discriminate. }
  destruct (assign_defined (optMember settings "queries") "exposure"
              (exposureBlock (jsOr (optMember settings "experimentDimensions")
                                (jsArray []))
                 (optMember (optMember settings "queries") "experimentsQuery"))
              Hqo) as [q' Hq'].
  destruct (assign_defined settings "queries" q' Hso) as [s' Hs'].
  exists q', s'. repeat split; auto.
  rewrite !(member_optMember settings) by assumption. simpl.
  rewrite (member_optMember _ _ Hqo). simpl.
  rewrite Hq'. simpl. exact Hs'.
Qed.

(** [upgradeSettings] unfolded along its two tests. *)
Lemma upgradeSettings_eq settings :
  upgradeSettings settings =
  (let? s1 := if negb (truthy (optMember settings "ids"))
              then assign settings "ids" defaultIds else Ok settings in
   if needsExposure s1
   then let? queries := member s1 "queries" in
        let? experimentDimensions := member s1 "experimentDimensions" in
        let? experimentsQuery := member queries "experimentsQuery" in
        let? queries :=
          assign queries "exposure"
            (exposureBlock (jsOr experimentDimensions (jsArray []))
               experimentsQuery) in
        assign s1 "queries" queries
   else Ok s1)%result.
Proof. reflexivity. Qed.

(** A settings bundle that passes neither test is returned as it is. *)
Lemma upgradeSettings_fixed settings :
  truthy (optMember settings "ids") = true ->
  needsExposure settings = false ->
  upgradeSettings settings = Ok settings.
Proof.
  intros Hi He. rewrite upgradeSettings_eq, Hi. simpl. now rewrite He.
Qed.

(** What comes out of [upgradeSettings] passes neither test. *)
Lemma upgradeSettings_post settings settings' :
  upgradeSettings settings = Ok settings' ->
  truthy (optMember settings' "ids") = true
  /\ needsExposure settings' = false.
Proof.
  rewrite upgradeSettings_eq.
  set (first := if negb (truthy (optMember settings "ids"))
                then assign settings "ids" defaultIds else Ok settings).
  assert (H1 : forall s1, first = Ok s1 -> truthy (optMember s1 "ids") = true).
  { subst first. intros s1.
    destruct (truthy (optMember settings "ids")) eqn:Hi; simpl; intros H.
    - inversion H; subst; assumption.
    - now rewrite (optMember_assign_same _ _ _ _ H). }
  destruct first as [s1|e]; simpl; [|discriminate].
  specialize (H1 s1 eq_refl).
  destruct (needsExposure s1) eqn:He.
  - destruct (exposure_branch s1 He) as (q' & s' & Hq' & Hs' & Hrun).
    rewrite Hrun. intros H; inversion H; subst settings'. split.
    + rewrite (optMember_assign_other _ _ _ _ _ Hs') by discriminate. exact H1.
    + unfold needsExposure.
      rewrite (optMember_assign_same _ _ _ _ Hs').
      rewrite (optMember_assign_same _ _ _ _ Hq'). simpl.
      apply andb_false_r.
  - intros H; inversion H; subst. auto.
Qed.

Lemma upgradeSettings_defined settings :
  isObject settings = true -> exists settings', upgradeSettings settings = Ok settings'.
Proof.
  intros Ho. rewrite upgradeSettings_eq.
  assert (exists s1, (if negb (truthy (optMember settings "ids"))
                      then assign settings "ids" defaultIds else Ok settings)
                     = Ok s1) as [s1 ->].
  { destruct (negb (truthy (optMember settings "ids"))); eauto.
    now apply assign_defined. }
  simpl. destruct (needsExposure s1) eqn:He; eauto.
  destruct (exposure_branch s1 He) as (q' & s' & _ & _ & Hrun). eauto.
Qed.

Lemma upgradeSettings_fails settings :
  isObject settings = false -> upgradeSettings settings = Throw TypeError.
Proof.
  intros Ho. rewrite upgradeSettings_eq.
  assert (Hi : truthy (optMember settings "ids") = false).
  { destruct (truthy (optMember settings "ids")) eqn:E; auto.
    apply truthy_optMember_isObject in E. congruence. }
  rewrite Hi. simpl. now rewrite (assign_fails _ _ _ Ho).
Qed.

Lemma upgradeDatasourceObject_settings d d' :
  upgradeDatasourceObject d = Ok d' ->
  upgradeSettings (DS.settings d) = Ok (DS.settings d')
  /\ d' = DS.withSettings d (DS.settings d').
Proof.
  unfold upgradeDatasourceObject.
  destruct (upgradeSettings (DS.settings d)) as [s|e]; simpl; intros H;
    inversion H; subst; auto.
Qed.

(** Every failure of the upgrade is a [TypeError]. *)
Lemma upgradeDatasourceObject_throws d e :
  upgradeDatasourceObject d = Throw e -> e = TypeError.
Proof.
  unfold upgradeDatasourceObject.
  destruct (isObject (DS.settings d)) eqn:Ho.
  - destruct (upgradeSettings_defined _ Ho) as [s ->]. discriminate.
  - rewrite (upgradeSettings_fails _ Ho). simpl. congruence.
Qed.

(** C3: [upgradeDatasourceObject] is idempotent: on every record [d] on
    which it is defined, applying it to its own result gives that result
    again. *)
Theorem upgradeDatasourceObject_idempotent d d' :
  upgradeDatasourceObject d = Ok d' ->
  upgradeDatasourceObject d' = Ok d'.
Proof.
  intros H.
  destruct (upgradeDatasourceObject_settings _ _ H) as [Hs Hd].
  destruct (upgradeSettings_post _ _ Hs) as [Hi He].
  unfold upgradeDatasourceObject.
  rewrite (upgradeSettings_fixed _ Hi He). simpl.
  rewrite Hd. reflexivity.
Qed.

(** The first [if] of the upgrade, on a bundle that is an object. *)
Lemma ids_step settings :
  isObject settings = true ->
  exists s1,
    (if negb (truthy (optMember settings "ids"))
     then assign settings "ids" defaultIds else Ok settings) = Ok s1
    /\ isObject s1 = true
    /\ optMember s1 "ids" =
       (if truthy (optMember settings "ids")
        then optMember settings "ids" else defaultIds)
    /\ (forall k, k <> "ids" -> optMember s1 k = optMember settings k).
Proof.
  intros Ho. destruct (truthy (optMember settings "ids")) eqn:Hi; simpl.
  - exists settings. auto.
  - destruct (assign_defined settings "ids" defaultIds Ho) as [s1 H1].
    exists s1. repeat split; auto.
    + eapply assign_isObject; eauto.
    + eapply optMember_assign_same; eauto.
    + intros k Hk. eapply optMember_assign_other; eauto.
Qed.

Lemma withSettings_same d : DS.withSettings d (DS.settings d) = d.
Proof. destruct d; reflexivity. Qed.

(** C4 (amended): on every record whose [settings] is an object the upgrade
    returns a record that differs from its argument in [settings.ids] and
    [settings.queries.exposure] at most, where
    - [settings.ids] is the two default identifier entries when it was
      falsy (absent, [null], ...), and is left as it was when truthy;
    - [settings.queries.exposure] is the [main] block (query copied from
      [experimentsQuery], dimensions from [settings.experimentDimensions]
      or the empty list, ids [user_id] and [anonymous_id]) when
      [experimentsQuery] was truthy (present and not empty) and [exposure]
      falsy, and is left as it was otherwise;
    - a record that needs neither is returned unchanged. *)
Theorem upgradeDatasourceObject_synthesizes d :
  isObject (DS.settings d) = true ->
  exists d',
    upgradeDatasourceObject d = Ok d'
    /\ d' = DS.withSettings d (DS.settings d')
    /\ optMember (DS.settings d') "ids" =
       (if truthy (optMember (DS.settings d) "ids")
        then optMember (DS.settings d) "ids"
        else defaultIds)
    /\ optMember (optMember (DS.settings d') "queries") "exposure" =
       (if truthy (optMember (optMember (DS.settings d) "queries")
                             "experimentsQuery")
           && negb (truthy (optMember (optMember (DS.settings d) "queries")
                                      "exposure"))
        then exposureBlock
               (jsOr (optMember (DS.settings d) "experimentDimensions")
                     (jsArray []))
               (optMember (optMember (DS.settings d) "queries")
                          "experimentsQuery")
        else optMember (optMember (DS.settings d) "queries") "exposure")
    /\ (forall k, k <> "ids" -> k <> "queries" ->
          optMember (DS.settings d') k = optMember (DS.settings d) k)
    /\ (forall k, k <> "exposure" ->
          optMember (optMember (DS.settings d') "queries") k =
          optMember (optMember (DS.settings d) "queries") k)
    /\ (truthy (optMember (DS.settings d) "ids") = true ->
        needsExposure (DS.settings d) = false -> d' = d).
Proof.
  intros Ho.
  destruct (ids_step _ Ho) as (s1 & Hfirst & Ho1 & Hids & Hother).
  assert (Hq : optMember s1 "queries" = optMember (DS.settings d) "queries")
    by (apply Hother; discriminate).
  assert (Hne : needsExposure s1 = needsExposure (DS.settings d))
    by (unfold needsExposure; now rewrite Hq).
  fold (needsExposure (DS.settings d)).
  destruct (needsExposure (DS.settings d)) eqn:He.
  - destruct (exposure_branch s1 Hne) as (q' & s' & Hq' & Hs' & Hrun).
    exists (DS.withSettings d s').
    assert (Hup : upgradeSettings (DS.settings d) = Ok s').
    { rewrite upgradeSettings_eq, Hfirst. simpl. now rewrite Hne. }
    unfold upgradeDatasourceObject. rewrite Hup. simpl.
    repeat split.
    + rewrite (optMember_assign_other _ _ _ _ _ Hs') by discriminate.
      exact Hids.
    + rewrite (optMember_assign_same _ _ _ _ Hs').
      rewrite (optMember_assign_same _ _ _ _ Hq').
      rewrite Hq, (Hother "experimentDimensions") by discriminate.
      reflexivity.
    + intros k Hk1 Hk2.
      rewrite (optMember_assign_other _ _ _ _ _ Hs') by congruence.
      now apply Hother.
    + intros k Hk.
      rewrite (optMember_assign_same _ _ _ _ Hs').
      rewrite (optMember_assign_other _ _ _ _ _ Hq') by congruence.
      now rewrite Hq.
    + discriminate.
  - exists (DS.withSettings d s1).
    assert (Hup : upgradeSettings (DS.settings d) = Ok s1).
    { rewrite upgradeSettings_eq, Hfirst. simpl. now rewrite Hne. }
    unfold upgradeDatasourceObject. rewrite Hup. simpl.
    repeat split; auto.
    + now rewrite Hq.
    + intros k _. now rewrite Hq.
    + intros Hi _. rewrite Hi in Hfirst. simpl in Hfirst.
      inversion Hfirst; subst. apply withSettings_same.
Qed.

(** The upgrade returns exactly on the records whose [settings] is an
    object. *)
Lemma upgradeDatasourceObject_defined_iff d :
  (exists d', upgradeDatasourceObject d = Ok d') <-> isObject (DS.settings d) = true.
Proof.
  unfold upgradeDatasourceObject. split.
  - intros [d' H]. destruct (isObject (DS.settings d)) eqn:Ho; auto.
    rewrite (upgradeSettings_fails _ Ho) in H. discriminate.
  - intros Ho. destruct (upgradeSettings_defined _ Ho) as [s' ->].
    simpl. eauto.
Qed.

Lemma nullish_not_isObject v : nullish v = true -> isObject v = false.
Proof. destruct v; simpl; intros H; try discriminate; reflexivity. Qed.

Lemma upgradeDatasourceObject_nullish d :
  nullish (DS.settings d) = true -> upgradeDatasourceObject d = Throw TypeError.
Proof.
  intros H. unfold upgradeDatasourceObject.
  now rewrite (upgradeSettings_fails _ (nullish_not_isObject _ H)).
Qed.

(* ===================================================================== *)
(** ** Properties of [minimize] *)
(* ===================================================================== *)

Lemma minimize_JObj ps :
  minimize (JObj ps)
  = match minimizeProps ps with
    | [] => JUndefined
    | ps' => JObj ps'
    end.
Proof.
  reflexivity.
Qed.

Lemma minimize_JArr es own :
  minimize (JArr es own) = JArr (minimizeElems es) [].
Proof.
  reflexivity.
Qed.

(** What is not an object is kept as it is. *)
Lemma minimize_not_object v : isObject v = false -> minimize v = v.
Proof. destruct v; simpl; intros H; try discriminate; reflexivity. Qed.

Lemma minimize_isObject v : isObject (minimize v) = true -> isObject v = true.
Proof.
  destruct (isObject v) eqn:Ho; [reflexivity|].
  intros H. rewrite (minimize_not_object _ Ho) in H. congruence.
Qed.

Section JsVal_induction.

Variable P : JsVal -> Prop.
Hypothesis P_undefined : P JUndefined.
Hypothesis P_null : P JNull.
Hypothesis P_bool : forall b, P (JBool b).
Hypothesis P_num : forall n, P (JNum n).
Hypothesis P_str : forall s, P (JStr s).
Hypothesis P_arr :
  forall es own, Forall P es -> Forall (fun p => P (snd p)) own ->
                 P (JArr es own).
Hypothesis P_obj :
  forall ps, Forall (fun p => P (snd p)) ps -> P (JObj ps).

(** Induction on a value, with the elements and the property values of an
    array or object as smaller values. *)
Fixpoint JsVal_nested_ind (v : JsVal) : P v :=
  let fix all_props (ps : list (string * JsVal))
    : Forall (fun p => P (snd p)) ps :=
    match ps with
    | [] => Forall_nil _
    | p :: rest => Forall_cons p (JsVal_nested_ind (snd p)) (all_props rest)
    end in
  let fix all_elems (es : list JsVal) : Forall P es :=
    match es with
    | [] => Forall_nil _
    | e :: rest => Forall_cons e (JsVal_nested_ind e) (all_elems rest)
    end in
  match v with
  | JUndefined => P_undefined
  | JNull => P_null
  | JBool b => P_bool b
  | JNum n => P_num n
  | JStr s => P_str s
  | JArr es own => P_arr es own (all_elems es) (all_props own)
  | JObj ps => P_obj ps (all_props ps)
  end.

End JsVal_induction.

Lemma minimizeProps_idempotent ps :
  Forall (fun p => minimize (minimize (snd p)) = minimize (snd p)) ps ->
  minimizeProps (minimizeProps ps) = minimizeProps ps.
Proof.
  induction 1 as [|[k x] rest Hx _ IH]; simpl; [reflexivity|].
  simpl in Hx. destruct (isUndefined (minimize x)) eqn:Hu; [assumption|].
  simpl. now rewrite Hx, Hu, IH.
Qed.

Lemma minimizeProps_fixed ps :
  minimize (minimize (JObj ps)) = minimize (JObj ps) ->
  minimizeProps (minimizeProps ps) = minimizeProps ps.
Proof.
  rewrite (minimize_JObj ps).
  destruct (minimizeProps ps) as [|p ps'] eqn:Hp; [reflexivity|].
  rewrite minimize_JObj.
  destruct (minimizeProps (p :: ps')); [discriminate|].
  intros H. now inversion H.
Qed.

Lemma minimizeElems_idempotent es :
  Forall (fun e => minimize (minimize e) = minimize e) es ->
  minimizeElems (minimizeElems es) = minimizeElems es.
Proof.
  induction 1 as [|e rest He _ IH]; [reflexivity|].
  destruct e as [| | b | n | s | es' own' | ps'];
    try (simpl; rewrite IH; reflexivity).
  - change (minimizeElems (JArr es' own' :: rest))
      with (JArr (minimizeElems es') [] :: minimizeElems rest).
    change (minimizeElems (JArr (minimizeElems es') [] :: minimizeElems rest))
      with (minimize (minimize (JArr es' own'))
              :: minimizeElems (minimizeElems rest)).
    now rewrite He, IH.
  - change (minimizeElems (JObj ps' :: rest))
      with (JObj (minimizeProps ps') :: minimizeElems rest).
    change (minimizeElems (JObj (minimizeProps ps') :: minimizeElems rest))
      with (JObj (minimizeProps (minimizeProps ps'))
              :: minimizeElems (minimizeElems rest)).
    now rewrite (minimizeProps_fixed _ He), IH.
Qed.

(** Minimizing what is minimized changes nothing: what was saved is read
    back as it was saved. *)
Lemma minimize_idempotent v : minimize (minimize v) = minimize v.
Proof.
  induction v as [| | b | n | s | es own Hes _ | ps Hps]
    using JsVal_nested_ind; try reflexivity.
  - rewrite !minimize_JArr. now rewrite minimizeElems_idempotent.
  - rewrite minimize_JObj.
    pose proof (minimizeProps_idempotent ps Hps) as Hidem.
    destruct (minimizeProps ps) as [|p ps'] eqn:Hp; [reflexivity|].
    rewrite minimize_JObj, Hidem. reflexivity.
Qed.

Lemma toJSON_idempotent d : toJSON (toJSON d) = toJSON d.
Proof.
  unfold toJSON. destruct d; simpl. unfold DS.withSettings. simpl.
  now rewrite minimize_idempotent.
Qed.

Lemma toJSON_not_object d :
  isObject (DS.settings d) = false -> toJSON d = d.
Proof.
  intros H. unfold toJSON. rewrite (minimize_not_object _ H).
  apply withSettings_same.
Qed.

Lemma key_toJSON d : key (toJSON d) = key d.
Proof. reflexivity. Qed.

(* ===================================================================== *)
(** ** Properties of the exported functions *)
(* ===================================================================== *)

Section ModelProperties.

Variable env : Imports.

(** C1: in file-config mode [createDataSource], [updateDataSource] and
    [deleteDatasourceById] each throw their own descriptive [Error] at
    once: the world they leave is the world they found, so the stored
    collection is unchanged and the trace shows no access to the document
    store (and no call to an external service). *)
Theorem mutations_rejected_in_file_config
    (w : World) (id organization name type : string)
    (params settings : JsVal) (newId : option string)
    (updates : Partial.DataSourceInterface) :
  usingFileConfig env = true ->
  createDataSource env organization name type params settings newId w
    = (Throw (Error "Cannot add. Data sources managed by config.yml"), w)
  /\ updateDataSource env id organization updates w
    = (Throw (Error "Cannot update. Data sources managed by config.yml"), w)
  /\ deleteDatasourceById env id organization w
    = (Throw (Error "Cannot delete. Data sources managed by config.yml"), w).
Proof.
  intros Hfc.
  unfold createDataSource, updateDataSource, deleteDatasourceById.
  rewrite Hfc. repeat split.
Qed.

Lemma hd_error_filter_first {A} (p : A -> bool) (l : list A) :
  match hd_error (filter p l) with
  | Some a =>
      exists before after,
        l = before ++ a :: after /\ p a = true
        /\ forall x, In x before -> p x = false
  | None => forall x, In x l -> p x = false
  end.
Proof.
  induction l as [|a rest IH]; simpl.
  - intros x [].
  - destruct (p a) eqn:Hp; simpl.
    + exists [], rest. repeat split; auto. intros x [].
    + destruct (hd_error (filter p rest)) as [b|].
      * destruct IH as (before & after & -> & Hb & Hbefore).
        exists (a :: before), after. repeat split; auto.
        intros x [<-|Hx]; auto.
      * intros x [<-|Hx]; auto.
Qed.

(** C5: in file-config mode [getDataSourcesByOrganization] returns the
    list that the static configuration gives for the organization, and
    [getDataSourceById] returns the first entry of that list whose id is
    the one asked for, or [null] when no entry has it; neither touches
    the document store (the world is left as found). *)
Theorem reads_from_file_config (w : World) (id organization : string) :
  usingFileConfig env = true ->
  getDataSourcesByOrganization env organization w
    = (Ok (getConfigDatasources env organization), w)
  /\ exists r,
       getDataSourceById env id organization w = (Ok r, w)
       /\ match r with
          | Some d =>
              DS.id d = id
              /\ exists before after,
                   getConfigDatasources env organization = before ++ d :: after
                   /\ forall x, In x before -> DS.id x <> id
          | None =>
              forall x, In x (getConfigDatasources env organization) ->
                        DS.id x <> id
          end.
Proof.
  intros Hfc. unfold getDataSourcesByOrganization, getDataSourceById.
  rewrite Hfc. split; [reflexivity|].
  eexists. split; [reflexivity|].
  pose proof (hd_error_filter_first (fun d => String.eqb (DS.id d) id)
                (getConfigDatasources env organization)) as H.
  destruct (hd_error _) as [d|].
  - destruct H as (before & after & Heq & Hd & Hb).
    split; [now apply String.eqb_eq|].
    exists before, after. split; auto.
    intros x Hx. apply String.eqb_neq. auto.
  - intros x Hx. apply String.eqb_neq. auto.
Qed.

(** *** Running [createDataSource] *)

Lemma createDataSource_steps organization name type params settings id w :
  usingFileConfig env = false ->
  createDataSource env organization name type params settings id w =
  match buildDatasource env organization name type params settings id w with
  | (Ok datasource, w0) => testAndCreate env datasource w0
  | (Throw e, w0) => (Throw e, w0)
  end.
Proof.
  intros Hfc. unfold createDataSource, buildDatasource, testAndCreate.
  rewrite Hfc. unfold bind.
  repeat match goal with
         | |- context [match ?c with (_, _) => _ end] =>
             destruct c as [[?|?] ?]; try reflexivity
         end.
Qed.

Lemma buildDatasource_frame organization name type params settings id w r w0 :
  buildDatasource env organization name type params settings id w = (r, w0) ->
  docs w0 = docs w
  /\ exists evs, trace w0 = trace w ++ evs /\ tokenEvents evs.
Proof.
  unfold buildDatasource, bind, uniqid, newDate, getToken, liftR, ret,
    nextTick, emit, bind.
  intros H.
  assert (Hnil : forall l : list Event, l = l ++ []) by
    (intros; now rewrite app_nil_r).
  assert (Hno : tokenEvents []) by (intros e []).
  assert (Hone : forall t c, tokenEvents [ExtGetToken t c]).
  { intros t c e [<-|[]]. eauto. }
  destruct id as [s|]; [destruct (negb (String.eqb s ""))|];
    (destruct (String.eqb type "google_analytics");
     [ destruct (member params "refreshToken") as [code|e]; simpl in H;
       [ destruct (tokenOutcome env _ code) as [tok|e]; simpl in H;
         [ destruct (assign params "refreshToken" _) as [p|e]; simpl in H |]
       |]
     | simpl in H ]);
    inversion H; subst; simpl; split; auto; eauto.
Qed.

Lemma testAndCreate_run datasource w :
  testAndCreate env datasource w =
  let tested := trace w ++ [ExtTestConnection (tick w) datasource] in
  match connectionOutcome env (tick w) datasource with
  | Some e => (Throw e, mkWorld (docs w) tested (S (tick w)))
  | None =>
      if existsb (matches (DS.id datasource) (DS.organization datasource))
                 (docs w)
      then (Throw duplicateKey,
            mkWorld (docs w) (tested ++ [DbCreate datasource]) (S (tick w)))
      else (upgradeDatasourceObject (toJSON datasource),
            mkWorld (docs w ++ [toJSON datasource])
                    (tested ++ [DbCreate datasource]) (S (tick w)))
  end.
Proof.
  unfold testAndCreate, testDataSourceConnection, DataSourceModel.create, toInterface,
    bind, nextTick, emit, getDocs, putDocs, liftR, ret, throw.
  simpl.
  destruct (connectionOutcome env (tick w) datasource); [reflexivity|].
  simpl.
  destruct (existsb _ (docs w)); reflexivity.
Qed.

Lemma tokenEvents_no_test evs t ds :
  tokenEvents evs -> ~ In (ExtTestConnection t ds) evs.
Proof. intros H Hin. destruct (H _ Hin) as (t' & c & Heq). discriminate. Qed.

Lemma tokenEvents_no_create evs doc :
  tokenEvents evs -> ~ In (DbCreate doc) evs.
Proof. intros H Hin. destruct (H _ Hin) as (t' & c & Heq). discriminate. Qed.

(** C6: [createDataSource] tests the connection before it inserts.  In
    every run, whatever it returns: if [testDataSourceConnection] was
    called and threw [e], then [createDataSource] throws that same [e],
    the stored collection is as it was, and [DataSourceModel.create] was
    not called; and if [DataSourceModel.create] was called on a document,
    [testDataSourceConnection] had been called on that document before,
    had returned, and no [create] came before it. *)
Theorem createDataSource_tests_connection_first
    (w : World) (organization name type : string) (params settings : JsVal)
    (id : option string) (r : Result DataSourceInterface) (w' : World) :
  createDataSource env organization name type params settings id w = (r, w') ->
  exists evs,
    trace w' = trace w ++ evs
    /\ (forall t datasource e,
          In (ExtTestConnection t datasource) evs ->
          connectionOutcome env t datasource = Some e ->
          r = Throw e
          /\ docs w' = docs w
          /\ forall doc, ~ In (DbCreate doc) evs)
    /\ (forall doc,
          In (DbCreate doc) evs ->
          exists t before after,
            evs = before ++ ExtTestConnection t doc :: after
            /\ connectionOutcome env t doc = None
            /\ In (DbCreate doc) after
            /\ forall doc', ~ In (DbCreate doc') before).
Proof.
  intros Hrun.
  destruct (usingFileConfig env) eqn:Hfc.
  { unfold createDataSource in Hrun. rewrite Hfc in Hrun.
    inversion Hrun; subst. exists []. rewrite app_nil_r.
    repeat split; intros; contradiction. }
  rewrite (createDataSource_steps _ _ _ _ _ _ _ Hfc) in Hrun.
  destruct (buildDatasource env organization name type params settings id w)
    as [[ds|e0] w0] eqn:Hbuild;
    destruct (buildDatasource_frame _ _ _ _ _ _ _ _ _ Hbuild)
      as (Hdocs & evs0 & Htrace & Htok).
  2:{ inversion Hrun; subst. exists evs0. split; [assumption|]. split.
      - intros t d e' Hin _. exfalso. eapply tokenEvents_no_test; eauto.
      - intros doc Hin. exfalso. eapply tokenEvents_no_create; eauto. }
  rewrite testAndCreate_run in Hrun. cbv zeta in Hrun.
  destruct (connectionOutcome env (tick w0) ds) as [e|] eqn:Hout.
  - inversion Hrun; subst; simpl.
    exists (evs0 ++ [ExtTestConnection (tick w0) ds]).
    rewrite Htrace, app_assoc. split; [reflexivity|].
    assert (Hnone : forall doc,
               ~ In (DbCreate doc) (evs0 ++ [ExtTestConnection (tick w0) ds])).
    { intros doc Hin. apply in_app_or in Hin as [Hin|[Hin|[]]].
      - eapply tokenEvents_no_create; eauto.
      - discriminate. }
    split.
    + intros t d e' Hin He'. apply in_app_or in Hin as [Hin|[Hin|[]]].
      * exfalso. eapply tokenEvents_no_test; eauto.
      * inversion Hin; subst. rewrite Hout in He'. inversion He'; subst.
        auto.
    + intros doc Hin. exfalso. eapply Hnone; eauto.
  - assert (Hevs : forall docs' r',
               (r', mkWorld docs'
                      ((trace w0 ++ [ExtTestConnection (tick w0) ds])
                         ++ [DbCreate ds]) (S (tick w0))) = (r, w') ->
               exists evs,
                 trace w' = trace w ++ evs
                 /\ (forall t datasource e,
                       In (ExtTestConnection t datasource) evs ->
                       connectionOutcome env t datasource = Some e ->
                       r = Throw e
                       /\ docs w' = docs w
                       /\ forall doc, ~ In (DbCreate doc) evs)
                 /\ (forall doc,
                       In (DbCreate doc) evs ->
                       exists t before after,
                         evs = before ++ ExtTestConnection t doc :: after
                         /\ connectionOutcome env t doc = None
                         /\ In (DbCreate doc) after
                         /\ forall doc', ~ In (DbCreate doc') before)).
    { intros docs' r' Heq. inversion Heq; subst; simpl.
      exists (evs0 ++ [ExtTestConnection (tick w0) ds; DbCreate ds]).
      rewrite Htrace, <- !app_assoc. split; [reflexivity|]. split.
      - intros t d e' Hin He'.
        apply in_app_or in Hin as [Hin|[Hin|[Hin|[]]]].
        + exfalso. eapply tokenEvents_no_test; eauto.
        + inversion Hin; subst. congruence.
        + discriminate.
      - intros doc Hin.
        apply in_app_or in Hin as [Hin|[Hin|[Hin|[]]]].
        + exfalso. eapply tokenEvents_no_create; eauto.
        + discriminate.
        + inversion Hin; subst.
          exists (tick w0), evs0, [DbCreate doc]. repeat split; auto.
          * now left.
          * intros doc'. now apply tokenEvents_no_create. }
    destruct (existsb _ (docs w0)); eapply Hevs; exact Hrun.
Qed.

Lemma buildDatasource_plain organization name type params settings id w :
  type <> "google_analytics" ->
  buildDatasource env organization name type params settings id w =
  match id with
  | Some (String c s) =>
      (Ok {| DS.id := String c s; DS.name := name;
             DS.organization := organization; DS.type := type;
             DS.settings := settings;
             DS.dateCreated := clock env (tick w);
             DS.dateUpdated := clock env (S (tick w));
             DS.params := encryptParams env params |},
       mkWorld (docs w) (trace w) (S (S (tick w))))
  | _ =>
      (Ok {| DS.id := ("ds_" ++ uniqidTail env (tick w))%string; DS.name := name;
             DS.organization := organization; DS.type := type;
             DS.settings := settings;
             DS.dateCreated := clock env (S (tick w));
             DS.dateUpdated := clock env (S (S (tick w)));
             DS.params := encryptParams env params |},
       mkWorld (docs w) (trace w) (S (S (S (tick w)))))
  end.
Proof.
  intros Hty. apply String.eqb_neq in Hty.
  unfold buildDatasource. rewrite Hty.
  destruct id as [[|c s]|]; reflexivity.
Qed.

Lemma existsb_matches_false l d :
  existsb (matches (DS.id d) (DS.organization d)) l = false ->
  forall x, In x l -> key x <> key d.
Proof.
  intros H x Hx Hk.
  assert (Hm : matches (DS.id d) (DS.organization d) x = true).
  { unfold key in Hk. inversion Hk as [[Hi Ho]]. unfold matches.
    now rewrite !String.eqb_refl. }
  assert (Hex : existsb (matches (DS.id d) (DS.organization d)) l = true)
    by (apply existsb_exists; eauto).
  congruence.
Qed.

(** C7 (amended): every call of [createDataSource] with a type other than
    [google_analytics] that returns has appended one record to the stored
    collection.  Its [params] is [encryptParams(params)], its
    organization, name and type are the arguments, its settings are the
    [settings] argument minimized, that is, with its empty objects removed
    as Mongoose does on save, and what is left of them is an object; its
    two dates are two successive readings of the clock, and its id is the
    [id] argument when that is a non-empty string and [ds_] followed by
    what [uniqid] generates when the argument is left out or is the empty
    string; no record stored before has its (id, organization) pair.  The
    value returned is the upgrade of that record. *)
Theorem createDataSource_persists
    (w : World) (organization name type : string) (params settings : JsVal)
    (id : option string) (v : DataSourceInterface) (w' : World) :
  type <> "google_analytics" ->
  createDataSource env organization name type params settings id w
    = (Ok v, w') ->
  usingFileConfig env = false
  /\ exists doc,
       docs w' = docs w ++ [doc]
       /\ DS.params doc = encryptParams env params
       /\ DS.organization doc = organization
       /\ DS.name doc = name
       /\ DS.type doc = type
       /\ DS.settings doc = minimize settings
       /\ isObject (minimize settings) = true
       /\ (exists t, DS.dateCreated doc = clock env t
                     /\ DS.dateUpdated doc = clock env (S t))
       /\ (forall s, id = Some s -> s <> "" -> DS.id doc = s)
       /\ (id = None \/ id = Some "" ->
           exists t, DS.id doc = ("ds_" ++ uniqidTail env t)%string)
       /\ (forall x, In x (docs w) -> key x <> key doc)
       /\ upgradeDatasourceObject doc = Ok v.
Proof.
  intros Hty Hrun.
  destruct (usingFileConfig env) eqn:Hfc.
  { unfold createDataSource in Hrun. rewrite Hfc in Hrun. discriminate. }
  split; [reflexivity|].
  rewrite (createDataSource_steps _ _ _ _ _ _ _ Hfc) in Hrun.
  rewrite (buildDatasource_plain _ _ _ _ _ _ _ Hty) in Hrun.
  assert (Hgo : forall ds w0,
             docs w0 = docs w ->
             testAndCreate env ds w0 = (Ok v, w') ->
             docs w' = docs w ++ [toJSON ds]
             /\ isObject (minimize (DS.settings ds)) = true
             /\ (forall x, In x (docs w) -> key x <> key (toJSON ds))
             /\ upgradeDatasourceObject (toJSON ds) = Ok v).
  { intros ds w0 Hd H. rewrite testAndCreate_run in H. cbv zeta in H.
    destruct (connectionOutcome env (tick w0) ds); [discriminate|].
    destruct (existsb _ (docs w0)) eqn:Hex; [discriminate|].
    inversion H as [[Hup Hw]]; subst; simpl. rewrite <- Hd.
    split; [reflexivity|]. split; [|split; [|reflexivity]].
    - apply (proj1 (upgradeDatasourceObject_defined_iff (toJSON ds))). eauto.
    - now apply existsb_matches_false. }
  destruct id as [[|c s]|]; apply Hgo in Hrun; try reflexivity;
    destruct Hrun as (Hdocs & Hobj & Hfresh & Hup);
    eexists; (split; [exact Hdocs|]); simpl;
    repeat (split; [reflexivity|]); (split; [exact Hobj|]);
    (split; [eexists; split; reflexivity|]).
  - split; [intros s Hs Hne; inversion Hs; subst; contradiction|].
    split; [intros _; eexists; reflexivity|]. auto.
  - split; [intros s' Hs _; inversion Hs; reflexivity|].
    split; [intros [H|H]; discriminate|]. auto.
  - split; [intros s Hs; discriminate|].
    split; [intros _; eexists; reflexivity|]. auto.
Qed.

(** *** The first match of a filter *)

Lemma find_first {A} (p : A -> bool) (f : A -> A) (l : list A) (d : A) :
  find p l = Some d ->
  exists before after,
    l = before ++ d :: after
    /\ p d = true
    /\ (forall x, In x before -> p x = false)
    /\ updateFirst p f l = before ++ f d :: after
    /\ removeFirst p l = before ++ after.
Proof.
  induction l as [|a rest IH]; simpl; [discriminate|].
  destruct (p a) eqn:Hp.
  - intros H; inversion H; subst. exists [], rest. simpl.
    repeat split; auto. intros x [].
  - intros H. destruct (IH H) as (before & after & -> & Hd & Hb & Hu & Hr).
    exists (a :: before), after. simpl. rewrite Hu, Hr.
    repeat split; auto. intros x [<-|Hx]; auto.
Qed.

Lemma find_none_unchanged {A} (p : A -> bool) (f : A -> A) (l : list A) :
  find p l = None -> updateFirst p f l = l /\ removeFirst p l = l.
Proof.
  induction l as [|a rest IH]; simpl; auto.
  destruct (p a); [discriminate|]. intros H.
  destruct (IH H) as [-> ->]. auto.
Qed.

Lemma matches_key id organization d :
  matches id organization d = true <-> key d = (id, organization).
Proof.
  unfold matches, key. rewrite andb_true_iff, !String.eqb_eq.
  split; [intros [-> ->]; reflexivity | intros H; inversion H; auto].
Qed.

(** Under the unique index a stored record is the first, and only, match
    of its own pair. *)
Lemma uniqueKeys_find l id organization d :
  uniqueKeys l -> In d l -> matches id organization d = true ->
  find (matches id organization) l = Some d.
Proof.
  unfold uniqueKeys. induction l as [|a rest IH]; simpl; [contradiction|].
  intros Hnd Hin Hm. inversion Hnd as [|k ks Hnotin Hnd']; subst.
  destruct (matches id organization a) eqn:Ha.
  - destruct Hin as [->|Hin]; [reflexivity|]. exfalso. apply Hnotin.
    apply matches_key in Ha, Hm. rewrite Ha, <- Hm. now apply in_map.
  - destruct Hin as [->|Hin]; [congruence|]. auto.
Qed.

Lemma uniqueKeys_split before d after :
  uniqueKeys (before ++ d :: after) ->
  uniqueKeys (before ++ after) /\ ~ In (key d) (map key (before ++ after)).
Proof.
  unfold uniqueKeys. rewrite !map_app. simpl. intros H.
  now apply NoDup_remove in H.
Qed.

Lemma uniqueKeys_put before d after :
  uniqueKeys (before ++ after) ->
  ~ In (key d) (map key (before ++ after)) ->
  uniqueKeys (before ++ d :: after).
Proof.
  unfold uniqueKeys. rewrite !map_app. simpl. intros Hnd Hnotin.
  apply NoDup_Add with (a := key d) (l := map key before ++ map key after);
    [apply Add_app | now constructor].
Qed.

Lemma existsb_matches_key l k :
  existsb (matches (fst k) (snd k)) l = false <-> ~ In k (map key l).
Proof.
  split.
  - intros H Hin. apply in_map_iff in Hin as (x & Hk & Hx).
    assert (existsb (matches (fst k) (snd k)) l = true); [|congruence].
    apply existsb_exists. exists x. split; auto.
    apply matches_key. rewrite Hk. now destruct k.
  - intros H. destruct (existsb _ l) eqn:E; auto. exfalso. apply H.
    apply existsb_exists in E as (x & Hx & Hm).
    apply matches_key in Hm. apply in_map_iff. exists x. split; auto.
    rewrite Hm. now destruct k.
Qed.

(** *** Running [updateDataSource] and [deleteDatasourceById] *)

Lemma updateDataSource_run id organization updates w :
  usingFileConfig env = false ->
  updateDataSource env id organization updates w =
  let accessed := trace w ++ [DbUpdateOne id organization updates] in
  match find (matches id organization) (docs w) with
  | None => (Ok tt, mkWorld (docs w) accessed (tick w))
  | Some d =>
      if existsb (matches (DS.id (applySet d updates))
                          (DS.organization (applySet d updates)))
                 (removeFirst (matches id organization) (docs w))
      then (Throw duplicateKey, mkWorld (docs w) accessed (tick w))
      else (Ok tt,
            mkWorld (updateFirst (matches id organization)
                                 (fun d => applySet d updates) (docs w))
                    accessed (tick w))
  end.
Proof.
  intros Hfc. unfold updateDataSource, DataSourceModel.updateOne. rewrite Hfc.
  unfold bind, emit, getDocs, putDocs, ret, throw. simpl.
  destruct (find _ (docs w)); [|reflexivity].
  destruct (existsb _ _); reflexivity.
Qed.

Lemma deleteDatasourceById_run id organization w :
  usingFileConfig env = false ->
  deleteDatasourceById env id organization w =
  (Ok tt, mkWorld (removeFirst (matches id organization) (docs w))
                  (trace w ++ [DbDeleteOne id organization]) (tick w)).
Proof.
  intros Hfc. unfold deleteDatasourceById, DataSourceModel.deleteOne. rewrite Hfc.
  reflexivity.
Qed.

Lemma updateDataSource_file_config id organization updates w :
  usingFileConfig env = true ->
  updateDataSource env id organization updates w =
  (Throw (Error "Cannot update. Data sources managed by config.yml"), w).
Proof. intros Hfc. unfold updateDataSource. now rewrite Hfc. Qed.

(** C8 (amended): let [d] be a stored record with the pair
    (id, organization), the store having the unique index.
    [updateDataSource(id, organization, updates)] returns exactly when the
    process is not in file-config mode and [updates] do not give [d] the
    pair of another stored record.  When it returns, the collection has, at
    the place of [d], the record whose fields named in [updates] have the
    new values and whose other fields are those of [d]; every other record
    is unchanged and in place, and none of them has the pair
    (id, organization). *)
Theorem updateDataSource_partial_merge
    (w : World) (id organization : string)
    (updates : Partial.DataSourceInterface) (d : DataSourceInterface) :
  uniqueKeys (docs w) ->
  In d (docs w) ->
  matches id organization d = true ->
  ((exists w', updateDataSource env id organization updates w = (Ok tt, w'))
   <-> (usingFileConfig env = false
        /\ forall x, In x (docs w) ->
                     key x = key (applySet d updates) -> x = d))
  /\ forall w',
       updateDataSource env id organization updates w = (Ok tt, w') ->
       exists before after,
         docs w = before ++ d :: after
         /\ docs w' = before ++ applySet d updates :: after
         /\ (forall x, In x (before ++ after) -> key x <> (id, organization)).
Proof.
  intros Huniq Hin Hm.
  pose proof (uniqueKeys_find _ _ _ _ Huniq Hin Hm) as Hfind.
  destruct (find_first _ (fun d => applySet d updates) _ _ Hfind)
    as (before & after & Hdocs & _ & _ & Hupd & Hrem).
  rewrite Hdocs in Huniq.
  destruct (uniqueKeys_split _ _ _ Huniq) as [_ Hnotin].
  assert (Hothers : forall x, In x (before ++ after) -> key x <> key d).
  { intros x Hx Hk. apply Hnotin. rewrite <- Hk. now apply in_map. }
  assert (Hfree :
            existsb (matches (DS.id (applySet d updates))
                             (DS.organization (applySet d updates)))
                    (before ++ after) = false
            <-> (forall x, In x (docs w) ->
                           key x = key (applySet d updates) -> x = d)).
  { rewrite (existsb_matches_key _ (key (applySet d updates))). split.
    - intros Hno x Hx Hk. rewrite Hdocs in Hx.
      apply in_app_or in Hx as [Hx|[Hx|Hx]]; auto; exfalso; apply Hno;
        rewrite <- Hk; apply in_map; apply in_or_app; auto.
    - intros Hall Hk. apply in_map_iff in Hk as (x & Hk & Hx).
      assert (x = d).
      { apply Hall; auto. rewrite Hdocs.
        apply in_app_or in Hx as [Hx|Hx]; apply in_or_app; simpl; auto. }
      subst x. now apply (Hothers d). }
  destruct (usingFileConfig env) eqn:Hfc.
  { rewrite (updateDataSource_file_config _ _ _ _ Hfc). split.
    - split; [intros [w' H]; discriminate | intros [H _]; discriminate].
    - intros w' H. discriminate. }
  rewrite (updateDataSource_run _ _ _ _ Hfc). cbv zeta.
  rewrite Hfind, Hrem, Hupd.
  destruct (existsb _ (before ++ after)) eqn:Hex.
  - split.
    + split; [intros [w' H]; discriminate|].
      intros [_ Hall]. apply Hfree in Hall. discriminate.
    + intros w' H. discriminate.
  - split.
    + split; [intros _; split; [reflexivity | now apply Hfree] | eauto].
    + intros w' H. inversion H; subst; simpl.
      exists before, after. repeat split; auto.
      intros x Hx Hk. apply (Hothers x Hx).
      apply matches_key in Hm. congruence.
Qed.

(** *** The unique index is an invariant *)

Lemma uniqueKeys_removeFirst p l :
  uniqueKeys l -> uniqueKeys (removeFirst p l).
Proof.
  intros H. destruct (find p l) as [d|] eqn:Hf.
  - destruct (find_first p (fun x => x) l d Hf)
      as (before & after & -> & _ & _ & _ & ->).
    now apply uniqueKeys_split in H.
  - now destruct (find_none_unchanged p (fun x => x) l Hf) as [_ ->].
Qed.

Lemma uniqueKeys_append l d :
  uniqueKeys l ->
  existsb (matches (DS.id d) (DS.organization d)) l = false ->
  uniqueKeys (l ++ [d]).
Proof.
  intros H Hex. apply uniqueKeys_put; rewrite app_nil_r; auto.
  now apply (existsb_matches_key l (key d)).
Qed.

Lemma createDataSource_uniqueKeys organization name type params settings id w :
  uniqueKeys (docs w) ->
  uniqueKeys
    (docs (snd (createDataSource env organization name type params
                  settings id w))).
Proof.
  intros H. destruct (usingFileConfig env) eqn:Hfc.
  { unfold createDataSource. now rewrite Hfc. }
  rewrite (createDataSource_steps _ _ _ _ _ _ _ Hfc).
  destruct (buildDatasource env organization name type params settings id w)
    as [[ds|e] w0] eqn:Hbuild;
    destruct (buildDatasource_frame _ _ _ _ _ _ _ _ _ Hbuild) as [Hdocs _];
    [|simpl; now rewrite Hdocs].
  rewrite testAndCreate_run. cbv zeta. rewrite Hdocs.
  destruct (connectionOutcome env (tick w0) ds); [assumption|].
  destruct (existsb _ (docs w)) eqn:Hex; simpl; [assumption|].
  now apply uniqueKeys_append.
Qed.

Lemma updateDataSource_uniqueKeys id organization updates w :
  uniqueKeys (docs w) ->
  uniqueKeys (docs (snd (updateDataSource env id organization updates w))).
Proof.
  intros H. destruct (usingFileConfig env) eqn:Hfc.
  { unfold updateDataSource. now rewrite Hfc. }
  rewrite (updateDataSource_run _ _ _ _ Hfc). cbv zeta.
  destruct (find (matches id organization) (docs w)) as [d|] eqn:Hf;
    [|assumption].
  destruct (find_first _ (fun d => applySet d updates) _ _ Hf)
    as (before & after & Hdocs & _ & _ & Hupd & Hrem).
  rewrite Hrem, Hupd.
  destruct (existsb _ (before ++ after)) eqn:Hex; simpl; [assumption|].
  rewrite Hdocs in H. apply uniqueKeys_split in H as [H _].
  apply uniqueKeys_put; auto.
  now apply (existsb_matches_key _ (key (applySet d updates))).
Qed.

Lemma deleteDatasourceById_uniqueKeys id organization w :
  uniqueKeys (docs w) ->
  uniqueKeys (docs (snd (deleteDatasourceById env id organization w))).
Proof.
  intros H. destruct (usingFileConfig env) eqn:Hfc.
  { unfold deleteDatasourceById. now rewrite Hfc. }
  rewrite (deleteDatasourceById_run _ _ _ Hfc). simpl.
  now apply uniqueKeys_removeFirst.
Qed.

(** *** Reads of a record that cannot be upgraded *)

Lemma toInterface_run d w :
  toInterface d w = (upgradeDatasourceObject (toJSON d), w).
Proof. reflexivity. Qed.

Lemma mapM_toInterface_throws l d w :
  In d l -> isObject (DS.settings d) = false ->
  mapM toInterface l w = (Throw TypeError, w).
Proof.
  intros Hin Hd. induction l as [|a rest IH]; simpl; [contradiction|].
  unfold bind. rewrite toInterface_run.
  destruct (upgradeDatasourceObject (toJSON a)) as [a'|e] eqn:Ha.
  - destruct Hin as [->|Hin].
    + rewrite (toJSON_not_object _ Hd) in Ha.
      unfold upgradeDatasourceObject in Ha.
      rewrite (upgradeSettings_fails _ Hd) in Ha. discriminate.
    + now rewrite (IH Hin).
  - now rewrite (upgradeDatasourceObject_throws _ _ Ha).
Qed.

(** C10: [upgradeDatasourceObject] returns on a record exactly when the
    record's [settings] is an object.  On a record whose [settings] is
    [null] or [undefined] the assignment of [settings.ids] is reached and
    raises a [TypeError]; and then, outside file-config mode, the reads
    that upgrade what they find crash too: [getDataSourcesByOrganization]
    on the organization of such a stored record, and [getDataSourceById]
    when that record is the one found. *)
Theorem upgrade_total_only_on_object_settings
    (w : World) (d : DataSourceInterface) :
  (isObject (DS.settings d) = true ->
   exists d', upgradeDatasourceObject d = Ok d')
  /\ (forall d', upgradeDatasourceObject d = Ok d' ->
                 isObject (DS.settings d) = true)
  /\ (nullish (DS.settings d) = true ->
      negb (truthy (optMember (DS.settings d) "ids")) = true
      /\ assign (DS.settings d) "ids" defaultIds = Throw TypeError
      /\ upgradeDatasourceObject d = Throw TypeError
      /\ (usingFileConfig env = false ->
          In d (docs w) ->
          (exists w',
              getDataSourcesByOrganization env (DS.organization d) w
              = (Throw TypeError, w'))
          /\ (find (matches (DS.id d) (DS.organization d)) (docs w) = Some d ->
              exists w',
                getDataSourceById env (DS.id d) (DS.organization d) w
                = (Throw TypeError, w')))).
Proof.
  split; [apply upgradeDatasourceObject_defined_iff|].
  split; [intros d' H; apply upgradeDatasourceObject_defined_iff; eauto|].
  intros Hnull.
  pose proof (nullish_not_isObject _ Hnull) as Hno.
  split; [destruct (DS.settings d); try discriminate; reflexivity|].
  split; [now apply assign_fails|].
  split; [now apply upgradeDatasourceObject_nullish|].
  intros Hfc Hin. split.
  - unfold getDataSourcesByOrganization, DataSourceModel.find. rewrite Hfc.
    unfold bind, emit, getDocs, ret. simpl.
    eexists. apply mapM_toInterface_throws with (d := d); auto.
    apply filter_In. split; auto. apply String.eqb_refl.
  - intros Hfind.
    unfold getDataSourceById, DataSourceModel.findOne. rewrite Hfc.
    unfold bind, emit, getDocs, ret. simpl. rewrite Hfind.
    unfold toInterface, liftR.
    rewrite (toJSON_not_object _ Hno).
    rewrite (upgradeDatasourceObject_nullish _ Hnull). eauto.
Qed.

End ModelProperties.

(** C2: in every world reached from an empty collection by calls of
    [createDataSource], [updateDataSource] and [deleteDatasourceById], no
    two stored records have the same (id, organization) pair: the pairs
    of the collection are without duplicate, that is, two positions that
    hold records with the same pair are one position. *)
Theorem reachable_unique_pairs (w : World) :
  reachable w ->
  uniqueKeys (docs w)
  /\ forall i j a b,
       nth_error (docs w) i = Some a ->
       nth_error (docs w) j = Some b ->
       (DS.id a, DS.organization a) = (DS.id b, DS.organization b) ->
       i = j.
Proof.
  intros Hreach.
  assert (Huniq : uniqueKeys (docs w)).
  { induction Hreach as [w Hempty| | |].
    - rewrite Hempty. constructor.
    - now apply createDataSource_uniqueKeys.
    - now apply updateDataSource_uniqueKeys.
    - now apply deleteDatasourceById_uniqueKeys. }
  split; [assumption|].
  intros i j a b Hi Hj Hk.
  unfold uniqueKeys in Huniq.
  rewrite NoDup_nth_error in Huniq. apply Huniq.
  - apply nth_error_Some. rewrite nth_error_map, Hi. discriminate.
  - rewrite !nth_error_map, Hi, Hj. simpl. now f_equal.
Qed.


(* ===================================================================== *)
(** ** StringArrayField *)
(* ===================================================================== *)



(** Losing focus commits a non-empty pending input in the same way, and
    a key that is not one of the four leaves everything as it is. *)
Lemma onBlur_commits (value : list string) (inputValue : string) :
  inputValue <> "" ->
  StringArrayField.onBlur value inputValue
  = StringArrayField.mkOutcome [value ++ [inputValue]] "" false.
Proof.
  intros Hne. apply String.eqb_neq in Hne.
  unfold StringArrayField.onBlur. now rewrite Hne.
Qed.

Lemma onKeyDown_other_key (value : list string) (inputValue key : string) :
  StringArrayField.isCommitKey key = false ->
  StringArrayField.onKeyDown value inputValue key
  = StringArrayField.nothing inputValue.
Proof.
  intros Hk. unfold StringArrayField.onKeyDown. rewrite Hk.
  now destruct (String.eqb inputValue "").
Qed.

(* ===================================================================== *)
(** ** The theorems at sample inputs *)
(* ===================================================================== *)

Lemma mutations_rejected_in_file_config_witness :
  usingFileConfig (Sample.imports true) = true
  /\ createDataSource (Sample.imports true) "org_1" "Warehouse" "postgres"
       (JObj []) (JObj []) None
       (Sample.world [Sample.record "ds_a" "org_1" (JObj [])])
     = (Throw (Error "Cannot add. Data sources managed by config.yml"),
        Sample.world [Sample.record "ds_a" "org_1" (JObj [])]).
Proof.
  split; [reflexivity|].
  apply (mutations_rejected_in_file_config (Sample.imports true)
           (Sample.world [Sample.record "ds_a" "org_1" (JObj [])])
           "ds_a" "org_1" "Warehouse" "postgres" (JObj []) (JObj []) None
           Partial.empty).
  reflexivity.
Defined.

Lemma reads_from_file_config_witness :
  usingFileConfig (Sample.imports true) = true
  /\ getDataSourcesByOrganization (Sample.imports true) "org_1" (Sample.world [])
     = (Ok (getConfigDatasources (Sample.imports true) "org_1"),
        Sample.world []).
Proof.
  split; [reflexivity|].
  apply (reads_from_file_config (Sample.imports true) (Sample.world [])
           "ds_a" "org_1").
  reflexivity.
Defined.

Lemma upgradeDatasourceObject_idempotent_witness :
  let d := Sample.record "ds_a" "org_1" Sample.legacySettings in
  exists d',
    upgradeDatasourceObject d = Ok d'
    /\ upgradeDatasourceObject d' = Ok d'.
Proof.
  eexists. split; [reflexivity|].
  apply (upgradeDatasourceObject_idempotent
           (Sample.record "ds_a" "org_1" Sample.legacySettings)).
  reflexivity.
Defined.

Lemma upgradeDatasourceObject_synthesizes_witness :
  isObject (DS.settings (Sample.record "ds_a" "org_1" Sample.legacySettings))
  = true
  /\ exists d',
       upgradeDatasourceObject
         (Sample.record "ds_a" "org_1" Sample.legacySettings) = Ok d'
       /\ optMember (DS.settings d') "ids" = defaultIds
       /\ optMember (optMember (DS.settings d') "queries") "exposure"
          = exposureBlock (jsArray [JStr "country"])
              (JStr "SELECT * FROM experiment_viewed").
Proof.
  split; [reflexivity|].
  destruct (upgradeDatasourceObject_synthesizes
              (Sample.record "ds_a" "org_1" Sample.legacySettings) eq_refl)
    as (d' & Hup & _ & Hids & Hexp & _).
  exists d'. split; [exact Hup|]. split; [exact Hids | exact Hexp].
Defined.

Lemma createDataSource_tests_connection_first_witness :
  let run :=
    createDataSource (Sample.imports false) "org_1" "unreachable" "postgres"
      (JObj []) (JObj []) (Some "ds_x") (Sample.world []) in
  run = (fst run, snd run)
  /\ fst run = Throw (Error "connect ECONNREFUSED")
  /\ docs (snd run) = [].
Proof.
  cbv zeta. split; [reflexivity|].
  destruct (createDataSource_tests_connection_first (Sample.imports false)
              (Sample.world []) "org_1" "unreachable" "postgres"
              (JObj []) (JObj []) (Some "ds_x") _ _ eq_refl)
    as (evs & Htrace & Htest & _).
  simpl in Htrace. subst evs.
  destruct (Htest 2
              {| DS.id := "ds_x"; DS.name := "unreachable";
                 DS.organization := "org_1"; DS.type := "postgres";
                 DS.settings := JObj []; DS.dateCreated := 1000;
                 DS.dateUpdated := 1001; DS.params := "blob" |}
              (Error "connect ECONNREFUSED")
              (or_introl eq_refl) eq_refl) as (Hr & Hdocs & _).
  split; [exact Hr | exact Hdocs].
Defined.

Lemma createDataSource_persists_witness :
  let run :=
    createDataSource (Sample.imports false) "org_1" "Warehouse" "postgres"
      (JObj [("host", JStr "db")]) Sample.legacySettings (Some "ds_x")
      (Sample.world []) in
  "postgres" <> "google_analytics"
  /\ (exists v, fst run = Ok v)
  /\ exists doc,
       docs (snd run) = [doc]
       /\ DS.id doc = "ds_x"
       /\ DS.params doc = "blob"
       /\ DS.settings doc = Sample.legacySettings.
Proof.
  cbv zeta. split; [discriminate|]. split; [eexists; reflexivity|].
  destruct (createDataSource_persists (Sample.imports false)
              (Sample.world []) "org_1" "Warehouse" "postgres"
              (JObj [("host", JStr "db")]) Sample.legacySettings
              (Some "ds_x") _ _ ltac:(discriminate) eq_refl)
    as (_ & doc & Hdocs & Hparams & _ & _ & _ & Hsettings & _ & _ & Hid & _).
  exists doc. split; [exact Hdocs|].
  split; [apply (Hid "ds_x" eq_refl); discriminate|].
  split; [exact Hparams | exact Hsettings].
Defined.

Lemma updateDataSource_partial_merge_witness :
  let a := Sample.record "ds_a" "org_1" (JObj []) in
  let b := Sample.record "ds_b" "org_1" (JObj []) in
  uniqueKeys [a; b]
  /\ In b [a; b]
  /\ matches "ds_b" "org_1" b = true
  /\ exists w',
       updateDataSource (Sample.imports false) "ds_b" "org_1"
         (Sample.rename "Lake") (Sample.world [a; b]) = (Ok tt, w')
       /\ exists before after,
            [a; b] = before ++ b :: after
            /\ docs w' = before ++ applySet b (Sample.rename "Lake") :: after.
Proof.
  cbv zeta.
  assert (Huniq : uniqueKeys [Sample.record "ds_a" "org_1" (JObj []);
                              Sample.record "ds_b" "org_1" (JObj [])]).
  { unfold uniqueKeys. simpl.
    repeat constructor; simpl; intuition discriminate. }
  split; [exact Huniq|]. split; [simpl; auto|]. split; [reflexivity|].
  exists (snd (updateDataSource (Sample.imports false) "ds_b" "org_1"
                 (Sample.rename "Lake")
                 (Sample.world [Sample.record "ds_a" "org_1" (JObj []);
                                Sample.record "ds_b" "org_1" (JObj [])]))).
  split; [reflexivity|].
  destruct (updateDataSource_partial_merge (Sample.imports false)
              (Sample.world [Sample.record "ds_a" "org_1" (JObj []);
                             Sample.record "ds_b" "org_1" (JObj [])])
              "ds_b" "org_1" (Sample.rename "Lake")
              (Sample.record "ds_b" "org_1" (JObj []))
              Huniq (or_intror (or_introl eq_refl)) eq_refl)
    as [_ Hpost].
  destruct (Hpost _ eq_refl) as (before & after & Hdocs & Hdocs' & _).
  exists before, after. split; [exact Hdocs | exact Hdocs'].
Defined.

Lemma reachable_unique_pairs_witness :
  let first :=
    snd (createDataSource (Sample.imports false) "org_1" "Warehouse" "postgres"
           (JObj []) (JObj []) (Some "ds_x") (Sample.world [])) in
  let again :=
    snd (createDataSource (Sample.imports false) "org_1" "Lake" "postgres"
           (JObj []) (JObj []) (Some "ds_x") first) in
  reachable again
  /\ uniqueKeys (docs again)
  /\ length (docs again) = 1.
Proof.
  cbv zeta.
  assert (H : reachable
                (snd (createDataSource (Sample.imports false) "org_1" "Lake"
                        "postgres" (JObj []) (JObj []) (Some "ds_x")
                        (snd (createDataSource (Sample.imports false) "org_1"
                                "Warehouse" "postgres" (JObj []) (JObj [])
                                (Some "ds_x") (Sample.world [])))))).
  { apply reach_create. apply reach_create. apply reach_empty. reflexivity. }
  split; [exact H|]. split; [|reflexivity].
  apply (reachable_unique_pairs _ H).
Defined.

Lemma upgrade_total_only_on_object_settings_witness :
  let broken := Sample.record "ds_a" "org_1" JUndefined in
  nullish (DS.settings broken) = true
  /\ upgradeDatasourceObject broken = Throw TypeError
  /\ (exists w',
         getDataSourcesByOrganization (Sample.imports false) "org_1"
           (Sample.world [Sample.record "ds_b" "org_1" (JObj []); broken])
         = (Throw TypeError, w'))
  /\ exists d',
       upgradeDatasourceObject (Sample.record "ds_b" "org_1" (JObj [])) = Ok d'.
Proof.
  cbv zeta. split; [reflexivity|].
  pose proof (upgrade_total_only_on_object_settings (Sample.imports false)
                (Sample.world [Sample.record "ds_b" "org_1" (JObj []);
                               Sample.record "ds_a" "org_1" JUndefined])
                (Sample.record "ds_a" "org_1" JUndefined)) as (_ & _ & Hnull).
  destruct (Hnull eq_refl) as (_ & _ & Hup & Hreads).
  destruct (Hreads eq_refl (or_intror (or_introl eq_refl))) as [Hlist _].
  split; [exact Hup|]. split; [exact Hlist|].
  apply (upgrade_total_only_on_object_settings (Sample.imports false)
           (Sample.world []) (Sample.record "ds_b" "org_1" (JObj []))).
  reflexivity.
Defined.

(* ===================================================================== *)
(** ** Inputs on which the statements do not hold as first written *)
(* ===================================================================== *)

(** An experiments query that is present and empty, with no exposure block:
    the upgrade leaves [exposure] absent.  And a record without [settings]:
    [ids] is absent and is not set, the upgrade throws. *)
Lemma upgradeDatasourceObject_empty_query_counterexample :
  let d := Sample.record "ds_a" "org_1" Sample.emptyQuerySettings in
  optMember (optMember (DS.settings d) "queries") "experimentsQuery" = JStr ""
  /\ optMember (optMember (DS.settings d) "queries") "exposure" = JUndefined
  /\ (exists d',
         upgradeDatasourceObject d = Ok d'
         /\ optMember (optMember (DS.settings d') "queries") "exposure"
            = JUndefined
         /\ optMember (optMember (DS.settings d') "queries") "exposure"
            <> exposureBlock (jsArray []) (JStr ""))
  /\ upgradeDatasourceObject (Sample.record "ds_a" "org_1" JUndefined)
     = Throw TypeError.
Proof.
  cbv zeta. split; [reflexivity|]. split; [reflexivity|]. split.
  - eexists. split; [reflexivity|]. split; [reflexivity | discriminate].
  - reflexivity.
Qed.

(** An [id] argument that is the empty string: the call returns and the
    record stored has a generated id, not the one supplied.  And a
    [settings] argument that holds an empty object: the call returns and
    the settings stored are not the ones given, the empty object is gone. *)
Lemma createDataSource_empty_id_counterexample :
  let run :=
    createDataSource (Sample.imports false) "org_1" "Warehouse" "postgres"
      (JObj [("host", JStr "db")]) Sample.legacySettings (Some "")
      (Sample.world []) in
  let given :=
    JObj [("queries", JObj []); ("notebookRunQuery", JStr "SELECT 1")] in
  let run' :=
    createDataSource (Sample.imports false) "org_1" "Warehouse" "postgres"
      (JObj [("host", JStr "db")]) given (Some "ds_x") (Sample.world []) in
  (exists v, fst run = Ok v)
  /\ (exists doc,
         docs (snd run) = [doc]
         /\ DS.id doc = "ds_a"
         /\ DS.id doc <> "")
  /\ (exists v, fst run' = Ok v)
  /\ exists doc,
       docs (snd run') = [doc]
       /\ DS.settings doc = JObj [("notebookRunQuery", JStr "SELECT 1")]
       /\ DS.settings doc <> given.
Proof.
  cbv zeta. split; [eexists; reflexivity|]. split.
  - eexists. split; [reflexivity|]. split; [reflexivity | discriminate].
  - split; [eexists; reflexivity|].
    eexists. split; [reflexivity|]. split; [reflexivity | discriminate].
Qed.

(** An update that names [id] with the id of another record of the same
    organization: the unique index refuses it, the call throws, and the
    record keeps its id.  And any update in file-config mode: the call
    throws and the record keeps its name. *)
Lemma updateDataSource_collision_counterexample :
  let a := Sample.record "ds_a" "org_1" (JObj []) in
  let b := Sample.record "ds_b" "org_1" (JObj []) in
  let run :=
    updateDataSource (Sample.imports false) "ds_a" "org_1"
      (Sample.renameTo "ds_b") (Sample.world [a; b]) in
  let runFileConfig :=
    updateDataSource (Sample.imports true) "ds_a" "org_1"
      (Sample.rename "Lake") (Sample.world [a; b]) in
  uniqueKeys [a; b]
  /\ matches "ds_a" "org_1" a = true
  /\ Partial.id (Sample.renameTo "ds_b") = Some "ds_b"
  /\ fst run = Throw duplicateKey
  /\ docs (snd run) = [a; b]
  /\ DS.id a <> "ds_b"
  /\ Partial.name (Sample.rename "Lake") = Some "Lake"
  /\ fst runFileConfig
     = Throw (Error "Cannot update. Data sources managed by config.yml")
  /\ docs (snd runFileConfig) = [a; b]
  /\ DS.name a <> "Lake".
Proof.
  cbv zeta. split.
  - unfold uniqueKeys. simpl.
    repeat constructor; simpl; intuition discriminate.
  - repeat (split; [reflexivity || discriminate|]). discriminate.
Qed.

(* ===================================================================== *)
(** ** Further properties of [createDataSource] *)
(* ===================================================================== *)

Section CreateProperties.

Variable env : Imports.

Lemma member_throws v k e : member v k = Throw e -> e = TypeError.
Proof. unfold member. destruct (nullish v); congruence. Qed.

Lemma assign_throws v k x e : assign v k x = Throw e -> e = TypeError.
Proof. destruct v; simpl; congruence. Qed.

(** What the first half of [createDataSource] leaves: the collection as it
    was, and a trace that grew by the one call of [getToken], made for the
    type [google_analytics] only. *)
Lemma buildDatasource_cases organization name type params settings id w r0 w0 :
  buildDatasource env organization name type params settings id w = (r0, w0) ->
  docs w0 = docs w
  /\ ((type <> "google_analytics"
       /\ trace w0 = trace w
       /\ exists ds, r0 = Ok ds /\ DS.params ds = encryptParams env params)
      \/ (type = "google_analytics"
          /\ member params "refreshToken" = Throw TypeError
          /\ trace w0 = trace w
          /\ r0 = Throw TypeError)
      \/ (type = "google_analytics"
          /\ exists code t,
               member params "refreshToken" = Ok code
               /\ trace w0 = trace w ++ [ExtGetToken t code]
               /\ ((exists e, tokenOutcome env t code = Throw e
                              /\ r0 = Throw e)
                   \/ (exists tok,
                          tokenOutcome env t code = Ok tok
                          /\ ((assign params "refreshToken"
                                      (jsOr tok (JStr "")) = Throw TypeError
                               /\ r0 = Throw TypeError)
                              \/ (exists params' ds,
                                     assign params "refreshToken"
                                            (jsOr tok (JStr "")) = Ok params'
                                     /\ r0 = Ok ds
                                     /\ DS.params ds
                                        = encryptParams env params')))))).
Proof.
  unfold buildDatasource, bind, uniqid, newDate, getToken, liftR, ret,
    nextTick, emit, bind.
  intros H.
  destruct (String.eqb_spec type "google_analytics") as [Hty|Hty].
  - destruct (member params "refreshToken") as [code|e] eqn:Hmem.
    + destruct id as [s|]; [destruct (negb (String.eqb s ""))|];
        simpl in H;
        (destruct (tokenOutcome env _ code) as [tok|e] eqn:Htok; simpl in H;
         [ destruct (assign params "refreshToken" (jsOr tok (JStr "")))
             as [p|e] eqn:Hassign; simpl in H;
           [ | pose proof (assign_throws _ _ _ _ Hassign); subst e ]
         | ]);
        inversion H; subst; simpl; (split; [reflexivity|]);
        right; right; (split; [reflexivity|]);
        do 2 eexists; (split; [reflexivity|]); (split; [reflexivity|]);
        eauto 10.
    + pose proof (member_throws _ _ _ Hmem); subst e.
      destruct id as [s|]; [destruct (negb (String.eqb s ""))|];
        simpl in H; inversion H; subst; simpl; auto 10.
  - destruct id as [s|]; [destruct (negb (String.eqb s ""))|];
      simpl in H; inversion H; subst; simpl; split; auto;
      left; repeat split; eauto.
Qed.

(** The [datasource] literal: the arguments, and an id that is never the
    empty string. *)
Lemma buildDatasource_fields organization name type params settings id w ds w0 :
  buildDatasource env organization name type params settings id w = (Ok ds, w0) ->
  DS.organization ds = organization
  /\ DS.name ds = name
  /\ DS.type ds = type
  /\ DS.settings ds = settings
  /\ DS.id ds <> ""
  /\ (forall s, id = Some s -> s <> "" -> DS.id ds = s).
Proof.
  unfold buildDatasource, bind, uniqid, newDate, getToken, liftR, ret,
    nextTick, emit, bind.
  intros H.
  destruct id as [s|]; [destruct (String.eqb_spec s "") as [->|Hs]|];
    simpl in H;
    (destruct (String.eqb type "google_analytics");
     [ destruct (member params "refreshToken") as [code|e]; simpl in H;
       [ destruct (tokenOutcome env _ code) as [tok|e]; simpl in H;
         [ destruct (assign params "refreshToken" _) as [p|e]; simpl in H |]
       |]
     | simpl in H ]);
    inversion H; subst; simpl; repeat split; auto; try discriminate;
    try (intros s' Hs'; inversion Hs'; subst; congruence).
Qed.

(** A run of [createDataSource], cut at the [datasource] literal. *)
Lemma createDataSource_run organization name type params settings id w r w' :
  createDataSource env organization name type params settings id w = (r, w') ->
  (usingFileConfig env = true /\ w' = w /\ exists e, r = Throw e)
  \/ (usingFileConfig env = false
      /\ exists r0 w0,
           buildDatasource env organization name type params settings id w
           = (r0, w0)
           /\ ((exists e, r0 = Throw e /\ r = Throw e /\ w' = w0)
               \/ (exists ds, r0 = Ok ds
                              /\ testAndCreate env ds w0 = (r, w')))).
Proof.
  intros H. destruct (usingFileConfig env) eqn:Hfc.
  - left. unfold createDataSource in H. rewrite Hfc in H.
    inversion H; subst. eauto.
  - right. split; [reflexivity|].
    rewrite (createDataSource_steps _ _ _ _ _ _ _ _ Hfc) in H.
    destruct (buildDatasource env organization name type params settings id w)
      as [[ds|e] w0].
    + exists (Ok ds), w0. split; eauto.
    + exists (Throw e), w0. inversion H; subst. split; eauto.
Qed.

(** The three ways the second half of [createDataSource] ends. *)
Lemma testAndCreate_cases ds w0 r w' :
  testAndCreate env ds w0 = (r, w') ->
  (exists e,
      connectionOutcome env (tick w0) ds = Some e
      /\ r = Throw e
      /\ docs w' = docs w0
      /\ trace w' = trace w0 ++ [ExtTestConnection (tick w0) ds])
  \/ (connectionOutcome env (tick w0) ds = None
      /\ existsb (matches (DS.id ds) (DS.organization ds)) (docs w0) = true
      /\ r = Throw duplicateKey
      /\ docs w' = docs w0
      /\ trace w' = trace w0 ++ [ExtTestConnection (tick w0) ds; DbCreate ds])
  \/ (connectionOutcome env (tick w0) ds = None
      /\ existsb (matches (DS.id ds) (DS.organization ds)) (docs w0) = false
      /\ r = upgradeDatasourceObject (toJSON ds)
      /\ docs w' = docs w0 ++ [toJSON ds]
      /\ trace w' = trace w0 ++ [ExtTestConnection (tick w0) ds; DbCreate ds]).
Proof.
  rewrite testAndCreate_run. cbv zeta. intros H.
  destruct (connectionOutcome env (tick w0) ds) as [e|].
  - left. inversion H; subst; simpl. eauto 10.
  - right. destruct (existsb _ (docs w0)) eqn:Hex;
      inversion H; subst; simpl; rewrite <- app_assoc; simpl; auto 10.
Qed.

Lemma app_one_neq {A} (l : list A) (a : A) : l ++ [a] <> l.
Proof.
  intros H. apply (f_equal (@length A)) in H.
  rewrite length_app in H. simpl in H. lia.
Qed.

(** X13: whatever its arguments and however it ends, [createDataSource]
    leaves every stored record as it was and where it was: the collection
    after the call is the collection before, or the collection before
    followed by one record.  That record has the organization, name and
    type of the call, the settings of the call minimized (with their empty
    objects removed, as Mongoose does on save), an id that is not the
    empty string, and an (id, organization) pair that no record stored
    before has. *)
Theorem createDataSource_appends_at_most_one
    (w : World) (organization name type : string) (params settings : JsVal)
    (id : option string) (r : Result DataSourceInterface) (w' : World) :
  createDataSource env organization name type params settings id w = (r, w') ->
  docs w' = docs w
  \/ exists doc,
       docs w' = docs w ++ [doc]
       /\ DS.organization doc = organization
       /\ DS.name doc = name
       /\ DS.type doc = type
       /\ DS.settings doc = minimize settings
       /\ DS.id doc <> ""
       /\ forall x, In x (docs w) -> key x <> key doc.
Proof.
  intros H.
  destruct (createDataSource_run _ _ _ _ _ _ _ _ _ H)
    as [(_ & -> & _)|(_ & r0 & w0 & Hb & Hrest)]; [now left|].
  destruct (buildDatasource_cases _ _ _ _ _ _ _ _ _ Hb) as [Hdocs _].
  destruct Hrest as [(e & -> & -> & ->)|(ds & -> & Htc)]; [now left|].
  destruct (buildDatasource_fields _ _ _ _ _ _ _ _ _ Hb)
    as (Ho & Hn & Ht & Hs & Hi & _).
  destruct (testAndCreate_cases _ _ _ _ Htc)
    as [(e & _ & _ & Hd & _)|[(_ & _ & _ & Hd & _)|(_ & Hex & _ & Hd & _)]];
    rewrite Hdocs in Hd; [now left | now left |].
  right. exists (toJSON ds). simpl. repeat split; auto.
  - now rewrite Hs.
  - rewrite Hdocs in Hex. now apply existsb_matches_false.
Qed.

(** X14: a call of [createDataSource] with a non-empty [id] that a stored
    record of the organization already has never returns and leaves the
    collection as it was; when the call got as far as
    [DataSourceModel.create], what it throws is the duplicate-key error of
    the unique index. *)
Theorem createDataSource_rejects_stored_pair
    (w : World) (organization name type : string) (params settings : JsVal)
    (s : string) (d : DataSourceInterface)
    (r : Result DataSourceInterface) (w' : World) :
  s <> "" ->
  In d (docs w) ->
  matches s organization d = true ->
  createDataSource env organization name type params settings (Some s) w
    = (r, w') ->
  (exists e, r = Throw e)
  /\ docs w' = docs w
  /\ exists evs,
       trace w' = trace w ++ evs
       /\ ((exists doc, In (DbCreate doc) evs) -> r = Throw duplicateKey).
Proof.
  intros Hs Hin Hm H.
  destruct (createDataSource_run _ _ _ _ _ _ _ _ _ H)
    as [(_ & -> & e & ->)|(_ & r0 & w0 & Hb & Hrest)].
  { split; [eauto|]. split; [reflexivity|]. exists []. rewrite app_nil_r.
    split; [reflexivity|]. intros [doc []]. }
  destruct (buildDatasource_frame _ _ _ _ _ _ _ _ _ _ Hb)
    as (Hdocs & evs0 & Htrace & Htok).
  destruct Hrest as [(e & -> & -> & ->)|(ds & -> & Htc)].
  { split; [eauto|]. split; [assumption|]. exists evs0. split; [assumption|].
    intros [doc Hdoc]. exfalso. eapply tokenEvents_no_create; eauto. }
  destruct (buildDatasource_fields _ _ _ _ _ _ _ _ _ Hb)
    as (Ho & _ & _ & _ & _ & Hid).
  assert (Hex : existsb (matches (DS.id ds) (DS.organization ds)) (docs w0)
                = true).
  { rewrite (Hid s eq_refl Hs), Ho, Hdocs. apply existsb_exists. eauto. }
  destruct (testAndCreate_cases _ _ _ _ Htc)
    as [(e & _ & -> & Hd & Ht)|[(_ & _ & -> & Hd & Ht)|(_ & Hno & _)]];
    [| |congruence]; (split; [eauto|]); (split; [congruence|]).
  - exists (evs0 ++ [ExtTestConnection (tick w0) ds]).
    rewrite Ht, Htrace, app_assoc. split; [reflexivity|].
    intros [doc Hdoc]. exfalso.
    apply in_app_or in Hdoc as [Hdoc|[Hdoc|[]]]; [|discriminate].
    eapply tokenEvents_no_create; eauto.
  - exists (evs0 ++ [ExtTestConnection (tick w0) ds; DbCreate ds]).
    rewrite Ht, Htrace, app_assoc. split; reflexivity.
Qed.

(** X15: a call of [createDataSource] whose [settings] is not an object
    ([null], [undefined], a primitive) never returns.  And when such a call
    changed the collection, it stored the record, with those settings, and
    then threw a [TypeError]: the error does not mean that nothing was
    created. *)
Theorem createDataSource_without_settings_object
    (w : World) (organization name type : string) (params settings : JsVal)
    (id : option string) (r : Result DataSourceInterface) (w' : World) :
  isObject settings = false ->
  createDataSource env organization name type params settings id w = (r, w') ->
  (exists e, r = Throw e)
  /\ (docs w' <> docs w ->
      r = Throw TypeError
      /\ exists doc, docs w' = docs w ++ [doc] /\ DS.settings doc = settings).
Proof.
  intros Hobj H.
  destruct (createDataSource_run _ _ _ _ _ _ _ _ _ H)
    as [(_ & -> & e & ->)|(_ & r0 & w0 & Hb & Hrest)].
  { split; [eauto|]. intros Hne. congruence. }
  destruct (buildDatasource_cases _ _ _ _ _ _ _ _ _ Hb) as [Hdocs _].
  destruct Hrest as [(e & -> & -> & ->)|(ds & -> & Htc)].
  { split; [eauto|]. intros Hne. congruence. }
  destruct (buildDatasource_fields _ _ _ _ _ _ _ _ _ Hb)
    as (_ & _ & _ & Hs & _).
  assert (Hjson : toJSON ds = ds)
    by (apply toJSON_not_object; now rewrite Hs).
  assert (Hup : upgradeDatasourceObject ds = Throw TypeError).
  { unfold upgradeDatasourceObject. rewrite Hs.
    now rewrite (upgradeSettings_fails _ Hobj). }
  destruct (testAndCreate_cases _ _ _ _ Htc)
    as [(e & _ & -> & Hd & _)|[(_ & _ & -> & Hd & _)|(_ & _ & -> & Hd & _)]];
    rewrite Hdocs in Hd.
  - split; [eauto|]. intros Hne. congruence.
  - split; [eauto|]. intros Hne. congruence.
  - rewrite Hjson in *. rewrite Hup. split; [eauto|]. intros _.
    split; [reflexivity|]. eauto.
Qed.

(** X16: [createDataSource] calls [getToken] for the type
    [google_analytics] only; and when that call rejects with [e],
    [createDataSource] throws [e] with the collection as it was, without
    having tested the connection and without a call of
    [DataSourceModel.create]. *)
Theorem createDataSource_token_failure_first
    (w : World) (organization name type : string) (params settings : JsVal)
    (id : option string) (r : Result DataSourceInterface) (w' : World) :
  createDataSource env organization name type params settings id w = (r, w') ->
  exists evs,
    trace w' = trace w ++ evs
    /\ (type <> "google_analytics" ->
        forall t code, ~ In (ExtGetToken t code) evs)
    /\ (forall t code e,
          In (ExtGetToken t code) evs ->
          tokenOutcome env t code = Throw e ->
          r = Throw e
          /\ docs w' = docs w
          /\ (forall t' datasource,
                ~ In (ExtTestConnection t' datasource) evs)
          /\ forall doc, ~ In (DbCreate doc) evs).
Proof.
  intros H.
  destruct (createDataSource_run _ _ _ _ _ _ _ _ _ H)
    as [(_ & -> & e & ->)|(_ & r0 & w0 & Hb & Hrest)].
  { exists []. rewrite app_nil_r. split; [reflexivity|].
    split; [intros _ t code [] | intros t code e' []]. }
  destruct (buildDatasource_cases _ _ _ _ _ _ _ _ _ Hb) as [Hdocs Hcases].
  assert (Htail : forall evs0 : list Event,
             trace w0 = trace w ++ evs0 ->
             exists tail,
               trace w' = trace w ++ evs0 ++ tail
               /\ forall t code, ~ In (ExtGetToken t code) tail).
  { intros evs0 Ht0.
    destruct Hrest as [(e & -> & -> & ->)|(ds & -> & Htc)].
    - exists []. rewrite app_nil_r. split; [assumption|]. intros t code [].
    - destruct (testAndCreate_cases _ _ _ _ Htc)
        as [(e & _ & _ & _ & Ht)|[(_ & _ & _ & _ & Ht)|(_ & _ & _ & _ & Ht)]];
        rewrite Ht, Ht0, <- app_assoc; eexists;
        (split; [reflexivity|]);
        intros t code Hin; simpl in Hin; intuition discriminate. }
  destruct Hcases
    as [(Hty & Ht0 & _)
       |[(Hty & _ & Ht0 & _)
        |(Hty & code & t & _ & Ht0 & Hout)]].
  - destruct (Htail [] ltac:(now rewrite app_nil_r)) as (tail & Ht & Hno).
    exists tail. split; [exact Ht|]. split; [intros _; exact Hno|].
    intros t code e Hin. now apply Hno in Hin.
  - destruct (Htail [] ltac:(now rewrite app_nil_r)) as (tail & Ht & Hno).
    exists tail. split; [exact Ht|]. split; [intros Hne; contradiction|].
    intros t code e Hin. now apply Hno in Hin.
  - destruct Hout as [(e' & He' & ->)|(tok & Htok & _)].
    + destruct Hrest as [(e0 & He0 & -> & ->)|(ds & Hds & _)]; [|discriminate].
      inversion He0; subst e0.
      exists [ExtGetToken t code]. split; [exact Ht0|].
      split; [intros Hne; contradiction|].
      intros t1 code1 e [Heq|[]] Hthrow. inversion Heq; subst t1 code1.
      assert (e' = e) by congruence. subst e'.
      repeat split; auto.
      * intros t' d' [Hd|[]]. discriminate.
      * intros doc [Hd|[]]. discriminate.
    + destruct (Htail _ Ht0) as (tail & Ht & Hno).
      exists ([ExtGetToken t code] ++ tail). split; [exact Ht|].
      split; [intros Hne; contradiction|].
      intros t1 code1 e Hin Hthrow. simpl in Hin.
      destruct Hin as [Heq|Hin]; [|now apply Hno in Hin].
      inversion Heq; subst t1 code1. congruence.
Qed.

(** X17: when a call of [createDataSource] for the type [google_analytics]
    returns, the record it stored holds [encryptParams] of the parameters
    in which [refreshToken] has been replaced by the refresh token that
    [getToken] gave for it, or by the empty string when that token is falsy;
    the code passed to [getToken] is the [refreshToken] of the argument. *)
Theorem createDataSource_google_analytics_params
    (w : World) (organization name : string) (params settings : JsVal)
    (id : option string) (v : DataSourceInterface) (w' : World) :
  createDataSource env organization name "google_analytics" params settings
    id w = (Ok v, w') ->
  exists code t tok params' doc,
    member params "refreshToken" = Ok code
    /\ tokenOutcome env t code = Ok tok
    /\ assign params "refreshToken" (jsOr tok (JStr "")) = Ok params'
    /\ optMember params' "refreshToken" = (if truthy tok then tok else JStr "")
    /\ docs w' = docs w ++ [doc]
    /\ DS.params doc = encryptParams env params'.
Proof.
  intros H.
  destruct (createDataSource_run _ _ _ _ _ _ _ _ _ H)
    as [(_ & _ & e & He)|(_ & r0 & w0 & Hb & Hrest)]; [discriminate|].
  destruct Hrest as [(e & _ & He & _)|(ds & -> & Htc)]; [discriminate|].
  destruct (buildDatasource_cases _ _ _ _ _ _ _ _ _ Hb) as [Hdocs Hcases].
  destruct Hcases
    as [(Hty & _)|[(_ & _ & _ & Hr)|(_ & code & t & Hmem & _ & Hout)]];
    [now contradiction Hty | discriminate |].
  destruct Hout as [(e & _ & Hr)|(tok & Htok & Hassign)]; [discriminate|].
  destruct Hassign as [(_ & Hr)|(params' & ds' & Ha & Hr & Hp)];
    [discriminate|]. inversion Hr; subst ds'.
  destruct (testAndCreate_cases _ _ _ _ Htc)
    as [(e & _ & He & _)|[(_ & _ & He & _)|(_ & _ & _ & Hd & _)]];
    try discriminate.
  exists code, t, tok, params', (toJSON ds). repeat split; auto.
  - apply (optMember_assign_same _ _ _ _ Ha).
  - now rewrite Hd, Hdocs.
Qed.

End CreateProperties.

(* ===================================================================== *)
(** ** Further properties of the reads *)
(* ===================================================================== *)

Section ReadProperties.

Variable env : Imports.

Lemma mapM_toInterface_returns l w vs w' :
  mapM toInterface l w = (Ok vs, w') ->
  Forall2 (fun d v => upgradeDatasourceObject (toJSON d) = Ok v) l vs /\ w' = w.
Proof.
  revert w vs w'. induction l as [|a rest IH]; intros w vs w'; simpl.
  - unfold ret. intros H; inversion H; subst. split; [constructor|reflexivity].
  - unfold bind. rewrite toInterface_run.
    destruct (upgradeDatasourceObject (toJSON a)) as [a'|e] eqn:Ha;
      [|discriminate].
    destruct (mapM toInterface rest w) as [[vs'|e] w1] eqn:Hrest;
      [|discriminate].
    apply IH in Hrest as [Hall ->]. unfold ret.
    intros H; inversion H; subst. split; [now constructor|reflexivity].
Qed.

Lemma mapM_toInterface_all l w vs :
  Forall2 (fun d v => upgradeDatasourceObject (toJSON d) = Ok v) l vs ->
  mapM toInterface l w = (Ok vs, w).
Proof.
  induction 1 as [|d v l vs Hd _ IH]; simpl; [reflexivity|].
  unfold bind. now rewrite toInterface_run, Hd, IH.
Qed.

Lemma getDataSourceById_run id organization w :
  usingFileConfig env = false ->
  getDataSourceById env id organization w =
  (match find (matches id organization) (docs w) with
   | Some d =>
       match upgradeDatasourceObject (toJSON d) with
       | Ok v => Ok (Some v)
       | Throw e => Throw e
       end
   | None => Ok None
   end,
   mkWorld (docs w) (trace w ++ [DbFindOne id organization]) (tick w)).
Proof.
  intros Hfc. unfold getDataSourceById, DataSourceModel.findOne.
  rewrite Hfc. unfold bind, emit, getDocs, ret. simpl.
  destruct (find _ (docs w)) as [d|]; [|reflexivity].
  unfold toInterface, liftR.
  destruct (upgradeDatasourceObject (toJSON d)); reflexivity.
Qed.

Lemma getDataSourcesByOrganization_run organization w :
  usingFileConfig env = false ->
  getDataSourcesByOrganization env organization w =
  mapM toInterface
    (filter (fun d => String.eqb (DS.organization d) organization) (docs w))
    (mkWorld (docs w) (trace w ++ [DbFind organization]) (tick w)).
Proof.
  intros Hfc. unfold getDataSourcesByOrganization, DataSourceModel.find.
  rewrite Hfc. reflexivity.
Qed.

Lemma find_none_iff id organization l :
  find (matches id organization) l = None <->
  forall x, In x l -> key x <> (id, organization).
Proof.
  split.
  - intros H x Hx Hk. apply matches_key in Hk.
    pose proof (find_none _ _ H x Hx). congruence.
  - intros H. destruct (find _ l) as [d|] eqn:Hf; [|reflexivity].
    apply find_some in Hf as [Hin Hm]. apply matches_key in Hm.
    now apply H in Hin.
Qed.

(** What an upgraded record keeps and has. *)
Lemma upgradeDatasourceObject_result d v :
  upgradeDatasourceObject d = Ok v ->
  DS.id v = DS.id d
  /\ DS.organization v = DS.organization d
  /\ truthy (optMember (DS.settings v) "ids") = true
  /\ needsExposure (DS.settings v) = false.
Proof.
  intros H. destruct (upgradeDatasourceObject_settings _ _ H) as [Hs Hd].
  destruct (upgradeSettings_post _ _ Hs) as [Hi He].
  rewrite Hd at 1 2. simpl. auto.
Qed.

Lemma mapM_toInterface_world l w : snd (mapM toInterface l w) = w.
Proof.
  induction l as [|a rest IH]; simpl; [reflexivity|].
  unfold bind. rewrite toInterface_run.
  destruct (upgradeDatasourceObject (toJSON a)); [|reflexivity].
  destruct (mapM toInterface rest w) as [[vs|e] w1]; simpl in *; auto.
Qed.

Lemma upgrade_all_defined l :
  (forall d, In d l -> isObject (minimize (DS.settings d)) = true) ->
  exists vs, Forall2 (fun d v => upgradeDatasourceObject (toJSON d) = Ok v) l vs.
Proof.
  induction l as [|a rest IH]; intros H.
  - exists []. constructor.
  - destruct IH as [vs Hvs]; [intros d Hd; apply H; now right|].
    destruct (proj2 (upgradeDatasourceObject_defined_iff (toJSON a)))
      as [v Hv]; [apply H; now left|].
    exists (v :: vs). now constructor.
Qed.

Lemma Forall2_upgrade_left l vs d :
  Forall2 (fun d v => upgradeDatasourceObject (toJSON d) = Ok v) l vs ->
  In d l -> exists v, In v vs /\ upgradeDatasourceObject (toJSON d) = Ok v.
Proof.
  induction 1 as [|a v l vs Ha _ IH]; intros Hin; [contradiction|].
  destruct Hin as [<-|Hin].
  - exists v. split; [now left | assumption].
  - destruct (IH Hin) as (v' & Hv' & Hd). exists v'. split; [now right|auto].
Qed.

Lemma Forall2_upgrade_right l vs v :
  Forall2 (fun d v => upgradeDatasourceObject (toJSON d) = Ok v) l vs ->
  In v vs -> exists d, In d l /\ upgradeDatasourceObject (toJSON d) = Ok v.
Proof.
  induction 1 as [|a v' l vs Ha _ IH]; intros Hin; [contradiction|].
  destruct Hin as [<-|Hin].
  - exists a. split; [now left | assumption].
  - destruct (IH Hin) as (d & Hd & Hv). exists d. split; [now right|auto].
Qed.

Lemma Forall2_upgrade_ids l vs :
  Forall2 (fun d v => upgradeDatasourceObject (toJSON d) = Ok v) l vs ->
  map DS.id vs = map DS.id l.
Proof.
  induction 1 as [|a v l vs Ha _ IH]; simpl; [reflexivity|].
  destruct (upgradeDatasourceObject_result _ _ Ha) as [-> _]. now rewrite IH.
Qed.

(** X1: outside file-config mode [getDataSourceById] makes one [findOne]
    and leaves the collection as it is.  It returns [null] exactly when no
    stored record has the pair (id, organization): a missing record is not
    an error.  A record it returns has the asked id and organization, is
    the upgrade of the [toJSON()] copy (the minimized copy) of a stored
    record with that pair, and has a truthy [settings.ids] and no exposure
    block left to derive. *)
Theorem getDataSourceById_from_store
    (w : World) (id organization : string)
    (r : Result (option DataSourceInterface)) (w' : World) :
  usingFileConfig env = false ->
  getDataSourceById env id organization w = (r, w') ->
  docs w' = docs w
  /\ trace w' = trace w ++ [DbFindOne id organization]
  /\ (r = Ok None <->
      forall x, In x (docs w) -> key x <> (id, organization))
  /\ forall v,
       r = Ok (Some v) ->
       DS.id v = id
       /\ DS.organization v = organization
       /\ (exists d, In d (docs w)
                     /\ key d = (id, organization)
                     /\ upgradeDatasourceObject (toJSON d) = Ok v)
       /\ truthy (optMember (DS.settings v) "ids") = true
       /\ needsExposure (DS.settings v) = false.
Proof.
  intros Hfc H. rewrite (getDataSourceById_run _ _ _ Hfc) in H.
  inversion H as [[Hr Hw]]. simpl. clear H Hw.
  split; [reflexivity|]. split; [reflexivity|].
  rewrite <- find_none_iff.
  destruct (find (matches id organization) (docs w)) as [d|] eqn:Hf.
  - apply find_some in Hf as [Hin Hm]. apply matches_key in Hm.
    inversion Hm as [[Hi Ho]].
    destruct (upgradeDatasourceObject (toJSON d)) as [v|e] eqn:Hup.
    + split; [split; discriminate|].
      intros v' Hv'. inversion Hv'; subst v'.
      destruct (upgradeDatasourceObject_result _ _ Hup)
        as (Hid & Horg & Hids & Hexp).
      simpl in Hid, Horg.
      repeat split; auto; try congruence. eauto.
    + split; [split; discriminate|]. intros v' Hv'. discriminate.
  - split; [split; reflexivity|]. intros v Hv. discriminate.
Qed.

(** X2: the three reads never write and never call an external service.
    In file-config mode they leave the world as they found it; outside it
    the collection and the clock are as before and the trace has grown by
    the one access of the read ([find], [findOne] or [distinct]), whether
    the read returns or throws. *)
Theorem reads_leave_collection (w : World) (id organization : string) :
  snd (getDataSourcesByOrganization env organization w)
  = (if usingFileConfig env then w
     else mkWorld (docs w) (trace w ++ [DbFind organization]) (tick w))
  /\ snd (getDataSourceById env id organization w)
     = (if usingFileConfig env then w
        else mkWorld (docs w) (trace w ++ [DbFindOne id organization])
                     (tick w))
  /\ snd (getOrganizationsWithDatasources env w)
     = (if usingFileConfig env then w
        else mkWorld (docs w) (trace w ++ [DbDistinct "organization"])
                     (tick w)).
Proof.
  destruct (usingFileConfig env) eqn:Hfc.
  - unfold getDataSourcesByOrganization, getDataSourceById,
      getOrganizationsWithDatasources. rewrite Hfc. repeat split.
  - rewrite (getDataSourcesByOrganization_run _ _ Hfc),
      (getDataSourceById_run _ _ _ Hfc), mapM_toInterface_world.
    unfold getOrganizationsWithDatasources. rewrite Hfc. repeat split.
Qed.

(** X3: outside file-config mode [getDataSourcesByOrganization] returns
    exactly when, for every stored record of the organization, what
    [toJSON()] leaves of [settings] is an object, that is, [settings] is an
    object that is not empty once its empty objects are removed; the
    records of other organizations play no part.  What it returns is the
    upgrades of the [toJSON()] copies of the stored records of the
    organization, one for one and in stored order, each with that
    organization, a truthy [settings.ids] and no exposure block left to
    derive. *)
Theorem getDataSourcesByOrganization_from_store
    (w : World) (organization : string) :
  usingFileConfig env = false ->
  ((exists vs w',
       getDataSourcesByOrganization env organization w = (Ok vs, w'))
   <-> (forall d, In d (docs w) -> DS.organization d = organization ->
                  isObject (minimize (DS.settings d)) = true))
  /\ forall vs w',
       getDataSourcesByOrganization env organization w = (Ok vs, w') ->
       Forall2 (fun d v => upgradeDatasourceObject (toJSON d) = Ok v)
               (filter (fun d => String.eqb (DS.organization d) organization)
                       (docs w))
               vs
       /\ map DS.id vs
          = map DS.id
              (filter (fun d => String.eqb (DS.organization d) organization)
                      (docs w))
       /\ forall v, In v vs ->
                    DS.organization v = organization
                    /\ truthy (optMember (DS.settings v) "ids") = true
                    /\ needsExposure (DS.settings v) = false.
Proof.
  intros Hfc. rewrite (getDataSourcesByOrganization_run _ _ Hfc).
  set (stored := filter (fun d => String.eqb (DS.organization d) organization)
                        (docs w)).
  set (w1 := mkWorld (docs w) (trace w ++ [DbFind organization]) (tick w)).
  split.
  - split.
    + intros (vs & w' & H) d Hin Horg.
      apply mapM_toInterface_returns in H as [Hall _].
      destruct (Forall2_upgrade_left _ _ d Hall) as (v & _ & Hv).
      { apply filter_In. split; [assumption|]. now apply String.eqb_eq. }
      apply (proj1 (upgradeDatasourceObject_defined_iff (toJSON d))). eauto.
    + intros Hall.
      destruct (upgrade_all_defined stored) as [vs Hvs].
      { intros d Hd. apply filter_In in Hd as [Hin Horg].
        apply Hall; auto. now apply String.eqb_eq. }
      exists vs, w1. now apply mapM_toInterface_all.
  - intros vs w' H. apply mapM_toInterface_returns in H as [Hall _].
    split; [assumption|]. split; [now apply Forall2_upgrade_ids|].
    intros v Hv.
    destruct (Forall2_upgrade_right _ _ v Hall Hv) as (d & Hd & Hup).
    destruct (upgradeDatasourceObject_result _ _ Hup) as (_ & Ho & Hi & He).
    simpl in Ho.
    apply filter_In in Hd as [_ Horg]. apply String.eqb_eq in Horg.
    repeat split; auto. congruence.
Qed.

(** X4: [getOrganizationsWithDatasources] returns the empty list in
    file-config mode, without touching the document store; outside it, it
    returns a list without repetition that holds exactly the organizations
    of the stored records. *)
Theorem getOrganizationsWithDatasources_distinct (w : World) :
  (usingFileConfig env = true ->
   getOrganizationsWithDatasources env w = (Ok [], w))
  /\ (usingFileConfig env = false ->
      exists orgs w',
        getOrganizationsWithDatasources env w = (Ok orgs, w')
        /\ NoDup orgs
        /\ forall o, In o orgs <->
                     exists d, In d (docs w) /\ DS.organization d = o).
Proof.
  unfold getOrganizationsWithDatasources. split; intros Hfc; rewrite Hfc.
  - reflexivity.
  - do 2 eexists. split; [reflexivity|]. split; [apply NoDup_nodup|].
    intros o. rewrite nodup_In, in_map_iff. split.
    + intros (d & <- & Hd). eauto.
    + intros (d & Hd & <-). eauto.
Qed.

Lemma find_app_last (p : DataSourceInterface -> bool) l d :
  existsb p l = false -> p d = true -> find p (l ++ [d]) = Some d.
Proof.
  induction l as [|a rest IH]; simpl; intros Hex Hd.
  - now rewrite Hd.
  - apply orb_false_iff in Hex as [Ha Hrest]. rewrite Ha. auto.
Qed.

Lemma matches_self d : matches (DS.id d) (DS.organization d) d = true.
Proof. unfold matches. now rewrite !String.eqb_refl. Qed.

(** X5: a record that [createDataSource] returned can be read back: right
    after a call that returned [v], [getDataSourceById] with the id of [v]
    and the organization of the call returns [v] itself. *)
Theorem createDataSource_then_getDataSourceById
    (w : World) (organization name type : string) (params settings : JsVal)
    (id : option string) (v : DataSourceInterface) (w' : World) :
  createDataSource env organization name type params settings id w
    = (Ok v, w') ->
  fst (getDataSourceById env (DS.id v) organization w') = Ok (Some v).
Proof.
  intros H.
  destruct (createDataSource_run _ _ _ _ _ _ _ _ _ _ H)
    as [(_ & _ & e & He)|(Hfc & r0 & w0 & Hb & Hrest)]; [discriminate|].
  destruct Hrest as [(e & _ & He & _)|(ds & -> & Htc)]; [discriminate|].
  destruct (buildDatasource_fields _ _ _ _ _ _ _ _ _ _ Hb)
    as (Ho & _).
  destruct (testAndCreate_cases _ _ _ _ _ Htc)
    as [(e & _ & He & _)|[(_ & _ & He & _)|(_ & Hex & Hup & Hd & _)]];
    try discriminate.
  symmetry in Hup.
  destruct (upgradeDatasourceObject_result _ _ Hup) as (Hid & _).
  simpl in Hid.
  rewrite (getDataSourceById_run _ _ _ Hfc). simpl.
  rewrite Hd, Hid, <- Ho.
  rewrite (find_app_last _ _ (toJSON ds) Hex (matches_self ds)).
  now rewrite toJSON_idempotent, Hup.
Qed.

End ReadProperties.

(* ===================================================================== *)
(** ** Further properties of [updateDataSource] and [deleteDatasourceById] *)
(* ===================================================================== *)

Section WriteProperties.

Variable env : Imports.

Lemma filter_all {A} (p : A -> bool) (l : list A) :
  (forall x, In x l -> p x = true) -> filter p l = l.
Proof.
  induction l as [|a rest IH]; simpl; intros H; [reflexivity|].
  rewrite (H a (or_introl eq_refl)), IH; auto.
Qed.

(** Under the unique index, removing the first match removes every match. *)
Lemma removeFirst_unique id organization l :
  uniqueKeys l ->
  removeFirst (matches id organization) l
  = filter (fun d => negb (matches id organization d)) l.
Proof.
  unfold uniqueKeys. induction l as [|a rest IH]; simpl; intros H;
    [reflexivity|].
  inversion H as [|k ks Hnotin Hnd]; subst.
  destruct (matches id organization a) eqn:Ha; simpl.
  - symmetry. apply filter_all. intros x Hx.
    destruct (matches id organization x) eqn:Hm; [|reflexivity].
    exfalso. apply Hnotin. apply matches_key in Ha, Hm.
    rewrite Ha, <- Hm. now apply in_map.
  - now rewrite IH.
Qed.

Lemma find_middle (p : DataSourceInterface -> bool) before d after :
  (forall x, In x before -> p x = false) -> p d = true ->
  find p (before ++ d :: after) = Some d.
Proof.
  induction before as [|a rest IH]; simpl; intros Hb Hd.
  - now rewrite Hd.
  - rewrite (Hb a (or_introl eq_refl)). auto.
Qed.

Lemma removeFirst_app_last (p : DataSourceInterface -> bool) l d :
  existsb p l = false -> p d = true -> removeFirst p (l ++ [d]) = l.
Proof.
  induction l as [|a rest IH]; simpl; intros Hex Hd.
  - now rewrite Hd.
  - apply orb_false_iff in Hex as [Ha Hrest]. rewrite Ha. now rewrite IH.
Qed.

(** X6: [updateDataSource] does not create: outside file-config mode, when
    no stored record has the pair (id, organization), the call returns
    without error and the collection is as it was; all it did is the one
    [updateOne]. *)
Theorem updateDataSource_without_match
    (w : World) (id organization : string)
    (updates : Partial.DataSourceInterface) :
  usingFileConfig env = false ->
  (forall x, In x (docs w) -> key x <> (id, organization)) ->
  updateDataSource env id organization updates w
  = (Ok tt,
     mkWorld (docs w) (trace w ++ [DbUpdateOne id organization updates])
             (tick w)).
Proof.
  intros Hfc Hnone. rewrite (updateDataSource_run _ _ _ _ _ Hfc). cbv zeta.
  now rewrite (proj2 (find_none_iff id organization (docs w)) Hnone).
Qed.

(** X7: outside file-config mode, on a collection that has the unique
    index, [deleteDatasourceById] returns without error whether or not a
    record has the pair (id, organization).  Afterwards no record has that
    pair, and the records with another pair are all there, unchanged and in
    order; when no record had the pair the collection is as it was. *)
Theorem deleteDatasourceById_removes
    (w : World) (id organization : string) :
  usingFileConfig env = false ->
  uniqueKeys (docs w) ->
  exists w',
    deleteDatasourceById env id organization w = (Ok tt, w')
    /\ docs w' = filter (fun d => negb (matches id organization d)) (docs w)
    /\ (forall x, In x (docs w') -> key x <> (id, organization))
    /\ (forall x, In x (docs w) -> key x <> (id, organization) ->
                  In x (docs w'))
    /\ ((forall x, In x (docs w) -> key x <> (id, organization)) ->
        docs w' = docs w).
Proof.
  intros Hfc Huniq. rewrite (deleteDatasourceById_run _ _ _ _ Hfc).
  eexists. split; [reflexivity|]. simpl.
  rewrite (removeFirst_unique _ _ _ Huniq).
  split; [reflexivity|]. split; [|split].
  - intros x Hx Hk. apply filter_In in Hx as [_ Hm].
    apply matches_key in Hk. rewrite Hk in Hm. discriminate.
  - intros x Hx Hk. apply filter_In. split; [assumption|].
    destruct (matches id organization x) eqn:Hm; [|reflexivity].
    apply matches_key in Hm. contradiction.
  - intros Hnone. apply filter_all. intros x Hx.
    destruct (matches id organization x) eqn:Hm; [|reflexivity].
    apply matches_key in Hm. now apply Hnone in Hx.
Qed.

(** X8: a deleted record cannot be read back: outside file-config mode, on
    a collection that has the unique index, [getDataSourceById] right after
    [deleteDatasourceById] with the same id and organization returns
    [null]. *)
Theorem deleteDatasourceById_then_getDataSourceById
    (w : World) (id organization : string) :
  usingFileConfig env = false ->
  uniqueKeys (docs w) ->
  fst (getDataSourceById env id organization
         (snd (deleteDatasourceById env id organization w)))
  = Ok None.
Proof.
  intros Hfc Huniq.
  rewrite (deleteDatasourceById_run _ _ _ _ Hfc),
    (getDataSourceById_run _ _ _ _ Hfc). simpl.
  rewrite (removeFirst_unique _ _ _ Huniq).
  assert (Hf : find (matches id organization)
                 (filter (fun d => negb (matches id organization d)) (docs w))
               = None).
  { apply find_none_iff. intros x Hx Hk. apply filter_In in Hx as [_ Hm].
    apply matches_key in Hk. rewrite Hk in Hm. discriminate. }
  now rewrite Hf.
Qed.

(** X9: deleting what was just created gives the collection back: after a
    call of [createDataSource] that returned [v], [deleteDatasourceById]
    with the id of [v] and the organization of the call leaves the
    collection that was there before the creation. *)
Theorem createDataSource_then_deleteDatasourceById
    (w : World) (organization name type : string) (params settings : JsVal)
    (id : option string) (v : DataSourceInterface) (w' : World) :
  createDataSource env organization name type params settings id w
    = (Ok v, w') ->
  deleteDatasourceById env (DS.id v) organization w'
  = (Ok tt,
     mkWorld (docs w) (trace w' ++ [DbDeleteOne (DS.id v) organization])
             (tick w')).
Proof.
  intros H.
  destruct (createDataSource_run _ _ _ _ _ _ _ _ _ _ H)
    as [(_ & _ & e & He)|(Hfc & r0 & w0 & Hb & Hrest)]; [discriminate|].
  destruct Hrest as [(e & _ & He & _)|(ds & -> & Htc)]; [discriminate|].
  destruct (buildDatasource_fields _ _ _ _ _ _ _ _ _ _ Hb) as (Ho & _).
  destruct (buildDatasource_cases _ _ _ _ _ _ _ _ _ _ Hb) as [Hdocs _].
  destruct (testAndCreate_cases _ _ _ _ _ Htc)
    as [(e & _ & He & _)|[(_ & _ & He & _)|(_ & Hex & Hup & Hd & _)]];
    try discriminate.
  symmetry in Hup.
  destruct (upgradeDatasourceObject_result _ _ Hup) as (Hid & _).
  simpl in Hid.
  rewrite (deleteDatasourceById_run _ _ _ _ Hfc).
  rewrite Hd, Hid, <- Ho.
  rewrite (removeFirst_app_last _ _ (toJSON ds) Hex (matches_self ds)).
  now rewrite Hdocs.
Qed.

(** X10: an update can be read back: on a collection that has the unique
    index, after a call of [updateDataSource] that returned for the stored
    record [d], [getDataSourceById] with the pair that the merged record
    has (the new id and organization when [updates] name them) reads the
    merged record: it returns the upgrade of its [toJSON()] copy (the
    minimized copy), and throws when that copy cannot be upgraded, as when
    the update left it with empty settings. *)
Theorem updateDataSource_then_getDataSourceById
    (w : World) (id organization : string)
    (updates : Partial.DataSourceInterface) (d : DataSourceInterface)
    (w' : World) :
  uniqueKeys (docs w) ->
  In d (docs w) ->
  matches id organization d = true ->
  updateDataSource env id organization updates w = (Ok tt, w') ->
  fst (getDataSourceById env (DS.id (applySet d updates))
         (DS.organization (applySet d updates)) w')
  = match upgradeDatasourceObject (toJSON (applySet d updates)) with
    | Ok v => Ok (Some v)
    | Throw e => Throw e
    end.
Proof.
  intros Huniq Hin Hm H.
  destruct (usingFileConfig env) eqn:Hfc.
  { rewrite (updateDataSource_file_config _ _ _ _ _ Hfc) in H. discriminate. }
  pose proof (uniqueKeys_find _ _ _ _ Huniq Hin Hm) as Hfind.
  destruct (find_first _ (fun d => applySet d updates) _ _ Hfind)
    as (before & after & Hdocs & _ & _ & Hupd & Hrem).
  rewrite (updateDataSource_run _ _ _ _ _ Hfc) in H. cbv zeta in H.
  rewrite Hfind, Hrem, Hupd in H.
  destruct (existsb _ (before ++ after)) eqn:Hex; [discriminate|].
  inversion H; subst w'. clear H.
  rewrite (getDataSourceById_run _ _ _ _ Hfc). simpl.
  rewrite find_middle; [reflexivity| |apply matches_self].
  intros x Hx.
  destruct (matches _ _ x) eqn:Hmx; [|reflexivity].
  assert (existsb (matches (DS.id (applySet d updates))
                           (DS.organization (applySet d updates)))
                  (before ++ after) = true); [|congruence].
  apply existsb_exists. exists x. split; [apply in_or_app; now left|auto].
Qed.

End WriteProperties.

(* ===================================================================== *)
(** ** StringArrayField in use *)
(* ===================================================================== *)



Lemma string_app_nonempty (a b : string) :
  b <> "" -> (a ++ b)%string <> "".
Proof. destruct a; simpl; [auto | discriminate]. Qed.






(** One step of a session leaves the list as it was or appends the pending
    input, which was not empty. *)
Lemma next_appends r a r' :
  StringArrayFieldUse.next r a = Some r' ->
  StringArrayFieldUse.value r' = StringArrayFieldUse.value r
  \/ (StringArrayFieldUse.inputValue r <> ""
      /\ StringArrayFieldUse.value r'
         = StringArrayFieldUse.value r ++ [StringArrayFieldUse.inputValue r]).
Proof.
  destruct r as [value input].
  destruct a as [val|key|];
    unfold StringArrayFieldUse.next, StringArrayField.onKeyDown,
      StringArrayField.onBlur; simpl.
  - intros H; inversion H; subst. now left.
  - destruct (String.eqb_spec input "") as [->|Hne]; simpl.
    + destruct (StringArrayFieldUse.isCharacterKey key);
        intros H; inversion H; subst. now left.
    + destruct (StringArrayField.isCommitKey key); simpl.
      * intros H; inversion H; subst. right. auto.
      * destruct (StringArrayFieldUse.isCharacterKey key);
          intros H; inversion H; subst. now left.
  - destruct (String.eqb_spec input "") as [->|Hne]; simpl;
      intros H; inversion H; subst; [now left | right; auto].
Qed.

(** X12: in every session that the model covers (input changes, blurs,
    and key presses that the handler commits or that type a character),
    the list only grows at its end: the list shown after the session is
    the list shown before, followed by what was added, and no added
    element is the empty string. *)
Theorem session_only_appends
    (r : StringArrayFieldUse.Rendered)
    (actions : list StringArrayFieldUse.Action)
    (r' : StringArrayFieldUse.Rendered) :
  StringArrayFieldUse.run r actions = Some r' ->
  exists added,
    StringArrayFieldUse.value r' = StringArrayFieldUse.value r ++ added
    /\ Forall (fun t => t <> "") added.
Proof.
  revert r. induction actions as [|a rest IH]; intros r; simpl.
  - intros H; inversion H; subst. exists []. rewrite app_nil_r.
    split; [reflexivity | constructor].
  - destruct (StringArrayFieldUse.next r a) as [r1|] eqn:Hnext;
      [|discriminate].
    intros Hrun. destruct (IH r1 Hrun) as (added & Hv & Hne).
    destruct (next_appends _ _ _ Hnext) as [Hsame|[Hi Happ]].
    + exists added. rewrite Hv, Hsame. auto.
    + exists (StringArrayFieldUse.inputValue r :: added).
      rewrite Hv, Happ, <- app_assoc. simpl. split; [reflexivity|].
      now constructor.
Qed.

(* ===================================================================== *)
(** ** The further properties at sample inputs *)
(* ===================================================================== *)

Lemma getDataSourceById_from_store_witness :
  let stored := [Sample.record "ds_a" "org_1" Sample.legacySettings;
                 Sample.record "ds_b" "org_1" (JObj [])] in
  let run :=
    getDataSourceById (Sample.imports false) "ds_c" "org_1"
      (Sample.world stored) in
  usingFileConfig (Sample.imports false) = false
  /\ docs (snd run) = stored
  /\ trace (snd run) = [DbFindOne "ds_c" "org_1"]
  /\ fst run = Ok None.
Proof.
  cbv zeta. split; [reflexivity|].
  destruct (getDataSourceById_from_store (Sample.imports false)
              (Sample.world [Sample.record "ds_a" "org_1" Sample.legacySettings;
                             Sample.record "ds_b" "org_1" (JObj [])])
              "ds_c" "org_1" _ _ eq_refl eq_refl)
    as (Hdocs & Htrace & Hnull & _).
  split; [exact Hdocs|]. split; [exact Htrace|].
  apply Hnull. simpl. intros x [<-|[<-|[]]]; discriminate.
Defined.

Lemma getDataSourcesByOrganization_from_store_witness :
  let stored := [Sample.record "ds_a" "org_1" Sample.legacySettings;
                 Sample.record "ds_b" "org_2" JNull] in
  usingFileConfig (Sample.imports false) = false
  /\ exists vs w',
       getDataSourcesByOrganization (Sample.imports false) "org_1"
         (Sample.world stored) = (Ok vs, w').
Proof.
  cbv zeta. split; [reflexivity|].
  apply (getDataSourcesByOrganization_from_store (Sample.imports false)
           (Sample.world [Sample.record "ds_a" "org_1" Sample.legacySettings;
                          Sample.record "ds_b" "org_2" JNull])
           "org_1" eq_refl).
  simpl. intros d [<-|[<-|[]]] Horg; [reflexivity | discriminate].
Defined.

Lemma getOrganizationsWithDatasources_distinct_witness :
  let stored := [Sample.record "ds_a" "org_1" (JObj []);
                 Sample.record "ds_b" "org_2" (JObj []);
                 Sample.record "ds_c" "org_1" (JObj [])] in
  usingFileConfig (Sample.imports false) = false
  /\ exists orgs w',
       getOrganizationsWithDatasources (Sample.imports false)
         (Sample.world stored) = (Ok orgs, w')
       /\ NoDup orgs
       /\ In "org_2" orgs.
Proof.
  cbv zeta. split; [reflexivity|].
  destruct (getOrganizationsWithDatasources_distinct (Sample.imports false)
              (Sample.world [Sample.record "ds_a" "org_1" (JObj []);
                             Sample.record "ds_b" "org_2" (JObj []);
                             Sample.record "ds_c" "org_1" (JObj [])]))
    as [_ Hdb].
  destruct (Hdb eq_refl) as (orgs & w' & Hrun & Hnd & Hin).
  exists orgs, w'. split; [exact Hrun|]. split; [exact Hnd|].
  apply Hin. eexists. split; [right; left; reflexivity | reflexivity].
Defined.

Lemma createDataSource_then_getDataSourceById_witness :
  let run :=
    createDataSource (Sample.imports false) "org_1" "Warehouse" "postgres"
      (JObj []) Sample.legacySettings None (Sample.world []) in
  exists v,
    fst run = Ok v
    /\ fst (getDataSourceById (Sample.imports false) (DS.id v) "org_1"
              (snd run)) = Ok (Some v).
Proof.
  cbv zeta. eexists. split; [reflexivity|].
  apply (createDataSource_then_getDataSourceById (Sample.imports false)
           (Sample.world []) "org_1" "Warehouse" "postgres" (JObj [])
           Sample.legacySettings None).
  reflexivity.
Defined.

Lemma updateDataSource_without_match_witness :
  let stored := [Sample.record "ds_a" "org_1" (JObj [])] in
  usingFileConfig (Sample.imports false) = false
  /\ fst (updateDataSource (Sample.imports false) "ds_a" "org_2"
            (Sample.rename "Lake") (Sample.world stored)) = Ok tt
  /\ docs (snd (updateDataSource (Sample.imports false) "ds_a" "org_2"
                  (Sample.rename "Lake") (Sample.world stored))) = stored.
Proof.
  cbv zeta. split; [reflexivity|].
  rewrite (updateDataSource_without_match (Sample.imports false)
             (Sample.world [Sample.record "ds_a" "org_1" (JObj [])])
             "ds_a" "org_2" (Sample.rename "Lake") eq_refl).
  - split; reflexivity.
  - simpl. intros x [<-|[]]. discriminate.
Defined.

Lemma sample_uniqueKeys :
  uniqueKeys [Sample.record "ds_a" "org_1" (JObj []);
              Sample.record "ds_b" "org_1" (JObj [])].
Proof.
  unfold uniqueKeys. simpl. repeat constructor; simpl; intuition discriminate.
Defined.

Lemma deleteDatasourceById_removes_witness :
  let a := Sample.record "ds_a" "org_1" (JObj []) in
  let b := Sample.record "ds_b" "org_1" (JObj []) in
  usingFileConfig (Sample.imports false) = false
  /\ uniqueKeys [a; b]
  /\ exists w',
       deleteDatasourceById (Sample.imports false) "ds_a" "org_1"
         (Sample.world [a; b]) = (Ok tt, w')
       /\ docs w' = [b].
Proof.
  cbv zeta. split; [reflexivity|]. split; [exact sample_uniqueKeys|].
  destruct (deleteDatasourceById_removes (Sample.imports false)
              (Sample.world [Sample.record "ds_a" "org_1" (JObj []);
                             Sample.record "ds_b" "org_1" (JObj [])])
              "ds_a" "org_1" eq_refl sample_uniqueKeys)
    as (w' & Hrun & Hdocs & _).
  exists w'. split; [exact Hrun | exact Hdocs].
Defined.

Lemma deleteDatasourceById_then_getDataSourceById_witness :
  let a := Sample.record "ds_a" "org_1" (JObj []) in
  let b := Sample.record "ds_b" "org_1" (JObj []) in
  usingFileConfig (Sample.imports false) = false
  /\ uniqueKeys [a; b]
  /\ fst (getDataSourceById (Sample.imports false) "ds_b" "org_1"
            (snd (deleteDatasourceById (Sample.imports false) "ds_b" "org_1"
                    (Sample.world [a; b])))) = Ok None.
Proof.
  cbv zeta. split; [reflexivity|]. split; [exact sample_uniqueKeys|].
  apply (deleteDatasourceById_then_getDataSourceById (Sample.imports false)
           (Sample.world [Sample.record "ds_a" "org_1" (JObj []);
                          Sample.record "ds_b" "org_1" (JObj [])])
           "ds_b" "org_1" eq_refl sample_uniqueKeys).
Defined.

Lemma createDataSource_then_deleteDatasourceById_witness :
  let stored := [Sample.record "ds_a" "org_1" (JObj [])] in
  let run :=
    createDataSource (Sample.imports false) "org_1" "Lake" "postgres"
      (JObj []) Sample.legacySettings (Some "ds_b") (Sample.world stored) in
  exists v,
    fst run = Ok v
    /\ docs (snd run) <> stored
    /\ docs (snd (deleteDatasourceById (Sample.imports false) (DS.id v) "org_1"
                    (snd run))) = stored.
Proof.
  cbv zeta. eexists. split; [reflexivity|]. split; [discriminate|].
  pose proof (createDataSource_then_deleteDatasourceById
                (Sample.imports false)
                (Sample.world [Sample.record "ds_a" "org_1" (JObj [])])
                "org_1" "Lake" "postgres" (JObj []) Sample.legacySettings
                (Some "ds_b")
                _ _ eq_refl) as H.
  apply (f_equal (fun p => docs (snd p))) in H. exact H.
Defined.

Lemma sample_uniqueKeys_legacy :
  uniqueKeys [Sample.record "ds_a" "org_1" (JObj []);
              Sample.record "ds_b" "org_1" Sample.legacySettings].
Proof.
  unfold uniqueKeys. simpl. repeat constructor; simpl; intuition discriminate.
Defined.

Lemma updateDataSource_then_getDataSourceById_witness :
  let a := Sample.record "ds_a" "org_1" (JObj []) in
  let b := Sample.record "ds_b" "org_1" Sample.legacySettings in
  let run :=
    updateDataSource (Sample.imports false) "ds_b" "org_1"
      (Sample.renameTo "ds_c") (Sample.world [a; b]) in
  uniqueKeys [a; b]
  /\ matches "ds_b" "org_1" b = true
  /\ fst run = Ok tt
  /\ exists v,
       upgradeDatasourceObject (toJSON (applySet b (Sample.renameTo "ds_c")))
       = Ok v
       /\ fst (getDataSourceById (Sample.imports false) "ds_c" "org_1"
                 (snd run))
          = Ok (Some v).
Proof.
  cbv zeta. split; [exact sample_uniqueKeys_legacy|]. split; [reflexivity|].
  split; [reflexivity|].
  eexists. split; [reflexivity|].
  exact (updateDataSource_then_getDataSourceById (Sample.imports false)
           (Sample.world [Sample.record "ds_a" "org_1" (JObj []);
                          Sample.record "ds_b" "org_1" Sample.legacySettings])
           "ds_b" "org_1" (Sample.renameTo "ds_c")
           (Sample.record "ds_b" "org_1" Sample.legacySettings) _
           sample_uniqueKeys_legacy (or_intror (or_introl eq_refl))
           eq_refl eq_refl).
Defined.


Lemma session_only_appends_witness :
  let r := StringArrayFieldUse.mkRendered ["a"] "" in
  let actions :=
    [StringArrayFieldUse.Press "c"; StringArrayFieldUse.Press " ";
     StringArrayFieldUse.Press "d"; StringArrayFieldUse.Blur] in
  StringArrayFieldUse.run r actions
  = Some (StringArrayFieldUse.mkRendered ["a"; "c"; "d"] "")
  /\ exists added,
       ["a"; "c"; "d"] = ["a"] ++ added /\ Forall (fun t => t <> "") added.
Proof.
  cbv zeta. split; [reflexivity|].
  apply (session_only_appends (StringArrayFieldUse.mkRendered ["a"] "")
           [StringArrayFieldUse.Press "c"; StringArrayFieldUse.Press " ";
            StringArrayFieldUse.Press "d"; StringArrayFieldUse.Blur]
           (StringArrayFieldUse.mkRendered ["a"; "c"; "d"] "")).
  reflexivity.
Defined.

Lemma createDataSource_appends_at_most_one_witness :
  let stored := [Sample.record "ds_a" "org_1" (JObj [])] in
  let run :=
    createDataSource (Sample.imports false) "org_1" "Lake" "postgres"
      (JObj []) Sample.legacySettings None (Sample.world stored) in
  docs (snd run) = stored
  \/ exists doc,
       docs (snd run) = stored ++ [doc]
       /\ DS.organization doc = "org_1"
       /\ DS.id doc <> "".
Proof.
  cbv zeta.
  destruct (createDataSource_appends_at_most_one (Sample.imports false)
              (Sample.world [Sample.record "ds_a" "org_1" (JObj [])])
              "org_1" "Lake" "postgres" (JObj []) Sample.legacySettings None
              _ _ eq_refl)
    as [H|(doc & Hd & Ho & _ & _ & _ & Hi & _)].
  - left. exact H.
  - right. exists doc. split; [exact Hd|]. split; [exact Ho | exact Hi].
Defined.

Lemma createDataSource_rejects_stored_pair_witness :
  let a := Sample.record "ds_a" "org_1" (JObj []) in
  let run :=
    createDataSource (Sample.imports false) "org_1" "Lake" "postgres"
      (JObj []) (JObj []) (Some "ds_a") (Sample.world [a]) in
  "ds_a" <> ""
  /\ matches "ds_a" "org_1" a = true
  /\ fst run = Throw duplicateKey
  /\ docs (snd run) = [a].
Proof.
  cbv zeta. split; [discriminate|]. split; [reflexivity|].
  destruct (createDataSource_rejects_stored_pair (Sample.imports false)
              (Sample.world [Sample.record "ds_a" "org_1" (JObj [])])
              "org_1" "Lake" "postgres" (JObj []) (JObj []) "ds_a"
              (Sample.record "ds_a" "org_1" (JObj [])) _ _
              ltac:(discriminate) (or_introl eq_refl) eq_refl eq_refl)
    as (_ & Hdocs & evs & Htrace & Hdup).
  split; [|exact Hdocs].
  apply Hdup. simpl in Htrace. subst evs.
  eexists. right. left. reflexivity.
Defined.

Lemma createDataSource_without_settings_object_witness :
  let run :=
    createDataSource (Sample.imports false) "org_1" "Lake" "postgres"
      (JObj []) JNull (Some "ds_a") (Sample.world []) in
  isObject JNull = false
  /\ fst run = Throw TypeError
  /\ exists doc, docs (snd run) = [doc] /\ DS.settings doc = JNull.
Proof.
  cbv zeta. split; [reflexivity|].
  destruct (createDataSource_without_settings_object (Sample.imports false)
              (Sample.world []) "org_1" "Lake" "postgres" (JObj []) JNull
              (Some "ds_a") _ _ eq_refl eq_refl)
    as (_ & Hstored).
  destruct (Hstored ltac:(discriminate)) as (Hr & doc & Hdocs & Hs).
  split; [exact Hr|]. exists doc. split; [exact Hdocs | exact Hs].
Defined.

Lemma createDataSource_token_failure_first_witness :
  let run :=
    createDataSource importsTokenRefused "org_1" "Analytics"
      "google_analytics" (JObj [("refreshToken", JStr "code")]) (JObj [])
      (Some "ds_a") (Sample.world []) in
  fst run = Throw (Error "invalid_grant")
  /\ docs (snd run) = [].
Proof.
  cbv zeta.
  destruct (createDataSource_token_failure_first importsTokenRefused
              (Sample.world []) "org_1" "Analytics" "google_analytics"
              (JObj [("refreshToken", JStr "code")]) (JObj []) (Some "ds_a")
              _ _ eq_refl)
    as (evs & Htrace & _ & Hfail).
  simpl in Htrace. subst evs.
  destruct (Hfail 0 (JStr "code") (Error "invalid_grant")
              (or_introl eq_refl) eq_refl) as (Hr & Hdocs & _).
  split; [exact Hr | exact Hdocs].
Defined.

Lemma createDataSource_google_analytics_params_witness :
  let run :=
    createDataSource (Sample.imports false) "org_1" "Analytics"
      "google_analytics" (JObj [("refreshToken", JStr "code")])
      Sample.legacySettings (Some "ds_a") (Sample.world []) in
  (exists v, fst run = Ok v)
  /\ exists params' doc,
       assign (JObj [("refreshToken", JStr "code")]) "refreshToken"
              (JStr "code") = Ok params'
       /\ docs (snd run) = [doc]
       /\ DS.params doc = encryptParams (Sample.imports false) params'.
Proof.
  cbv zeta. split; [eexists; reflexivity|].
  destruct (createDataSource_google_analytics_params (Sample.imports false)
              (Sample.world []) "org_1" "Analytics"
              (JObj [("refreshToken", JStr "code")]) Sample.legacySettings
              (Some "ds_a") _ _ eq_refl)
    as (code & t & tok & params' & doc & Hmem & Htok & Ha & _ & Hdocs & Hp).
  simpl in Hmem. inversion Hmem; subst code.
  simpl in Htok. inversion Htok; subst tok.
  exists params', doc. split; [exact Ha|]. split; [exact Hdocs | exact Hp].
Defined.
